(** * IP filter list of the game module (g_svcmds.c)

    A shallow embedding of the packet filter of [g_svcmds.c]: the global
    array [ipfilters] with its counter [numipfilters], the swap removal
    [RemoveIP], the expiry sweep [TDM_CheckBans], the connect-time test
    [SV_FilterPacket] and the console commands [addip], [removeip] and
    [writeip], followed by the properties of the filter list. *)

From Stdlib Require Import ZArith QArith_base Ascii String Lia.
From Equations Require Import Equations.
From stdpp Require Import base numbers list strings pretty.

Local Close Scope Q_scope.
Local Open Scope Z_scope.

(** ** Machine integers

    [unsigned] and [int] are 32 bits wide; a value is kept as a [Z] and
    every conversion writes its wrap-around out. *)

Definition to_unsigned (z : Z) : Z := z mod 2 ^ 32.

Definition to_int (z : Z) : Z := (z + 2 ^ 31) mod 2 ^ 32 - 2 ^ 31.

(** ** Data *)

Inductive netadrtype_t := NA_UNSPECIFIED | NA_IP | NA_IP6.

(** Modelled from the spec: [netadr_t] is declared in a header that is not
    part of the sources at hand.  The spec describes it as an address family,
    the raw address bytes and a prefix length in bits; the source reads the
    field [mask_bits] and compares whole values with [memcmp]. *)
Record netadr_t := {
  na_type : netadrtype_t;
  na_ip : list Z;
  mask_bits : Z
}.

(** Modelled from the spec: [ipfilter_t] is declared in [g_svcmds.h], which is
    not part of the sources at hand.  The source uses two fields, [addr] and
    [expire]; [expire] is compared with the [unsigned] clock and subtracted
    from it, and is taken to be an [unsigned] itself. *)
Record ipfilter_t := {
  addr : netadr_t;
  expire : Z
}.

#[export] Instance netadrtype_t_eq_dec : EqDecision netadrtype_t.
Proof. solve_decision. Defined.

#[export] Instance netadr_t_eq_dec : EqDecision netadr_t.
Proof. solve_decision. Defined.

#[export] Instance ipfilter_t_eq_dec : EqDecision ipfilter_t.
Proof. solve_decision. Defined.

(** The all-zero bit pattern that [memset (_, 0, _)] leaves behind. *)
Definition zero_addr : netadr_t :=
  {| na_type := NA_UNSPECIFIED; na_ip := []; mask_bits := 0 |}.

Definition zero_filter : ipfilter_t :=
  {| addr := zero_addr; expire := 0 |}.

#[export] Instance ipfilter_t_inhabited : Inhabited ipfilter_t :=
  populate zero_filter.

(** A console variable: its text and its numeric value.  The numeric value
    is a C [float]; a finite float is a rational number, and the two reads
    the source makes of it are truncation and comparison with zero. *)
Record cvar_t := {
  cv_string : string;
  value : Q
}.

(** [(int) v]: conversion of a finite float to [int] rounds towards zero. *)
Definition int_of_float (v : Q) : Z := Z.quot (Qnum v) (Z.pos (Qden v)).

(** [!v] on a float: one when the value is zero, zero otherwise. *)
Definition lnot_float (v : Q) : Z := if Qnum v =? 0 then 1 else 0.

(** The globals of the file, the console the game prints to and the files it
    has written, each file as its list of lines. *)
Record world := {
  ipfilters : list ipfilter_t;
  numipfilters : nat;
  console : list string;
  files : list (string * list string)
}.

Definition set_filters (a : list ipfilter_t) (n : nat) (w : world) : world :=
  {| ipfilters := a; numipfilters := n;
     console := console w; files := files w |}.

(** [gi.cprintf]: one more message on the console. *)
Definition cprintf (msg : string) (w : world) : world :=
  {| ipfilters := ipfilters w; numipfilters := numipfilters w;
     console := console w ++ [msg]; files := files w |}.

(** The entries in use: slots [0 .. numipfilters - 1] of the array. *)
Definition live (w : world) : list ipfilter_t :=
  take (numipfilters w) (ipfilters w).

(** ** RemoveIP

    [memcpy (target, last, _)] moves the last entry in use over slot [i],
    [memset (last, 0, _)] clears the last slot and the counter drops by one.
    The callers pass [i < numipfilters]; outside that range the C code
    writes outside the entries in use, which the model does not follow
    (an update past the end of the list leaves it as it is). *)
Definition RemoveIP (i : nat) (w : world) : world :=
  let last := (numipfilters w - 1)%nat in
  let moved := <[ i := ipfilters w !!! last ]> (ipfilters w) in
  let cleared := <[ last := zero_filter ]> moved in
  set_filters cleared (numipfilters w - 1)%nat w.

(** ** TDM_CheckBans *)

(** The test of the sweep,
    [ipfilters[i].expire && ipfilters[i].expire < now]. *)
Definition expired (now : Z) (f : ipfilter_t) : bool :=
  negb (expire f =? 0) && (expire f <? now).

(** The [for] loop of the sweep from index [i] on.  After a removal the
    source runs [i--] and the loop header [i++], which on an [unsigned]
    cancel out also at [i = 0]: the same index is examined again. *)
Equations? TDM_CheckBans_loop (now : Z) (i : nat) (w : world) : world
  by wf (numipfilters w - i)%nat lt :=
  TDM_CheckBans_loop now i w with lt_dec i (numipfilters w) => {
    | right _ := w;
    | left _ with expired now (ipfilters w !!! i) => {
        | true := TDM_CheckBans_loop now i (RemoveIP i w);
        | false := TDM_CheckBans_loop now (S i) w } }.
Proof. all: simpl; lia. Qed.

(** [t] is the value [time (NULL)] returns; [now] is its cast to
    [unsigned]. *)
Definition TDM_CheckBans (t : Z) (w : world) : world :=
  let now := to_unsigned t in
  TDM_CheckBans_loop now 0 w.

(** ** The commands

    The functions below call into parts of the game that are declared in
    headers outside the sources at hand.  They are taken as parameters, so
    that every statement about the commands holds for whatever these parts
    compute. *)

Definition nl : string := String "010"%char EmptyString.

Section Commands.

(** Capacity of the array [ipfilters] (a macro of [g_svcmds.h]). *)
Variable MAX_IPFILTERS : nat.

(** The address library: parser, containment test and the [IPMASK]
    rendering of an address with its prefix length. *)
Variable net_parseIPAddressMask : string -> netadr_t.
Variable net_contains : netadr_t -> netadr_t -> bool.
Variable IPMASK : netadr_t -> string.

(** The name of the mod folder and the size of a path buffer. *)
Variable GAMEVERSION : string.
Variable MAX_OSPATH : nat.

(** The entity a command answers to; [None] is the [NULL] pointer, the
    server console. *)
Variable edict_t : Type.

(** *** StringToFilter

    [time] is what [time (NULL)] returns; the source reads the clock only
    when [seconds] is not zero.  The assignment to [expire] converts to
    [unsigned].  The function returns [true] on every path. *)
Definition StringToFilter (time : Z) (s : string) (seconds : Z)
  : bool * ipfilter_t :=
  let a := net_parseIPAddressMask s in
  let e := if seconds =? 0 then to_unsigned (-1)
           else to_unsigned (time + seconds) in
  (true, {| addr := a; expire := e |}).

(** *** SV_FilterPacket *)

Equations? SV_FilterPacket_loop (filterban : cvar_t) (a : netadr_t)
    (i : nat) (w : world) : Z
  by wf (numipfilters w - i)%nat lt :=
  SV_FilterPacket_loop filterban a i w with lt_dec i (numipfilters w) => {
    | right _ := lnot_float (value filterban);
    | left _ with net_contains (addr (ipfilters w !!! i)) a => {
        | true := int_of_float (value filterban);
        | false := SV_FilterPacket_loop filterban a (S i) w } }.
Proof. lia. Qed.

(** The result and the world the sweep leaves behind. *)
Definition SV_FilterPacket (t : Z) (filterban : cvar_t) (a : netadr_t)
    (w : world) : Z * world :=
  let w := TDM_CheckBans t w in
  (SV_FilterPacket_loop filterban a 0 w, w).

(** *** SVCmd_AddIP_f

    [t_sweep] is the clock the sweep reads, [t_parse] the clock
    [StringToFilter] reads.  [expiry *= 60] is an [int] product. *)
Definition SVCmd_AddIP_f (t_sweep t_parse : Z) (ent : option edict_t)
    (ip : string) (expiry : Z) (w : world) : world :=
  if decide (ip = EmptyString) then
    cprintf ("Usage: " +:+ (if ent is None then "addip" else "ban")
             +:+ " <ip-mask>"
             +:+ (if ent is None then EmptyString else " [duration]")
             +:+ nl) w
  else
    let w := TDM_CheckBans t_sweep w in
    if decide (numipfilters w = MAX_IPFILTERS) then
      cprintf ("IP filter list is full" +:+ nl) w
    else
      let expiry := to_int (expiry * 60) in
      let '(ok, new_filter) := StringToFilter t_parse ip expiry in
      if negb ok then w
      else
        set_filters (<[ numipfilters w := new_filter ]> (ipfilters w))
                    (S (numipfilters w)) w.

(** *** SVCmd_RemoveIP_f *)

(** The test of the removal scan: equal [mask_bits] and [memcmp] equal to
    zero over the whole [netadr_t]. *)
Definition same_mask (f g : netadr_t) : bool :=
  (mask_bits f =? mask_bits g) && bool_decide (f = g).

Equations? SVCmd_RemoveIP_f_loop (ip : string) (f : ipfilter_t)
    (i : nat) (w : world) : world
  by wf (numipfilters w - i)%nat lt :=
  SVCmd_RemoveIP_f_loop ip f i w with lt_dec i (numipfilters w) => {
    | right _ := cprintf ("Didn't find " +:+ ip +:+ "." +:+ nl) w;
    | left _ with same_mask (addr f) (addr (ipfilters w !!! i)) => {
        | true :=
            cprintf ("Removed " +:+ IPMASK (addr f) +:+ nl) (RemoveIP i w);
        | false := SVCmd_RemoveIP_f_loop ip f (S i) w } }.
Proof. lia. Qed.

(** [StringToFilter] is called with zero seconds and does not read the
    clock; [t] is the clock of the sweep. *)
Definition SVCmd_RemoveIP_f (t : Z) (ent : option edict_t) (ip : string)
    (w : world) : world :=
  if decide (ip = EmptyString) then
    cprintf ("Usage: "
             +:+ (if ent is None then "sv removeip" else "unban")
             +:+ " <ip-mask>" +:+ nl) w
  else
    let '(ok, f) := StringToFilter t ip 0 in
    if negb ok then w
    else
      let w := TDM_CheckBans t w in
      SVCmd_RemoveIP_f_loop ip f 0 w.

(** *** SVCmd_ListIP_f *)

(** [" %-12s%s\n"]: the first text left-justified in twelve columns. *)
Definition pad12 (s : string) : string :=
  s +:+ string_of_list_ascii
          (replicate (12 - String.length s)%nat " "%char).

(** The line of one entry; [remaining] and [minutes] are [unsigned] and
    [%d] prints [minutes] as an [int]. *)
Definition ListIP_line (now : Z) (f : ipfilter_t) : string :=
  let remaining := to_unsigned (expire f - now) in
  let minutes := remaining / 60 in
  let value :=
    if expire f =? to_unsigned (-1) then "permanent"
    else pretty (to_int minutes) +:+ " min"
         +:+ (if minutes =? 1 then EmptyString else "s") in
  " " +:+ pad12 value +:+ IPMASK (addr f) +:+ nl.

Equations? SVCmd_ListIP_f_loop (now : Z) (i : nat) (w : world) : world
  by wf (numipfilters w - i)%nat lt :=
  SVCmd_ListIP_f_loop now i w with lt_dec i (numipfilters w) => {
    | right _ := w;
    | left _ :=
        SVCmd_ListIP_f_loop now (S i)
          (cprintf (ListIP_line now (ipfilters w !!! i)) w) }.
Proof. simpl; lia. Qed.

Definition SVCmd_ListIP_f (t_sweep t : Z) (ent : option edict_t) (w : world)
  : world :=
  let w := TDM_CheckBans t_sweep w in
  let now := to_unsigned t in
  let w := cprintf ("Filter list:" +:+ nl +:+ " Duration    IP" +:+ nl) w in
  SVCmd_ListIP_f_loop now 0 w.

(** *** SVCmd_WriteIP_f *)

(** [Com_sprintf] cuts its output to the size of the buffer, one byte of
    which holds the terminator. *)
Definition Com_sprintf (size : nat) (s : string) : string :=
  String.substring 0 (size - 1) s.

(** The name of the file: [listip.cfg] in the folder the [game] variable
    names, or in the mod folder when that variable is empty. *)
Definition listip_cfg (game : cvar_t) : string :=
  if decide (cv_string game = EmptyString)
  then GAMEVERSION +:+ "/listip.cfg"
  else Com_sprintf MAX_OSPATH (cv_string game +:+ "/listip.cfg").

Definition filterban_line (filterban : cvar_t) : string :=
  "set filterban " +:+ pretty (int_of_float (value filterban)) +:+ nl.

Definition addip_line (f : ipfilter_t) : string :=
  "sv addip " +:+ IPMASK (addr f) +:+ nl.

(** The lines the loop adds to the open file [f]; an entry whose [expire]
    is not zero is skipped by [continue]. *)
Equations? SVCmd_WriteIP_f_loop (i : nat) (w : world) (f : list string)
  : list string
  by wf (numipfilters w - i)%nat lt :=
  SVCmd_WriteIP_f_loop i w f with lt_dec i (numipfilters w) => {
    | right _ := f;
    | left _ with negb (expire (ipfilters w !!! i) =? 0) => {
        | true := SVCmd_WriteIP_f_loop (S i) w f;
        | false :=
            SVCmd_WriteIP_f_loop (S i) w
              (f ++ [addip_line (ipfilters w !!! i)]) } }.
Proof. all: lia. Qed.

(** [fopen (name, "wb")] succeeds or not as [fopen_ok] says; on success
    the file is created anew and [fclose] leaves the lines written in
    it. *)
Definition SVCmd_WriteIP_f (t : Z) (filterban game : cvar_t)
    (fopen_ok : bool) (w : world) : world :=
  let name := listip_cfg game in
  let w := cprintf ("Writing " +:+ name +:+ "." +:+ nl) w in
  if negb fopen_ok then
    cprintf ("Couldn't open " +:+ name +:+ nl) w
  else
    let f := [filterban_line filterban] in
    let w := TDM_CheckBans t w in
    let f := SVCmd_WriteIP_f_loop 0 w f in
    {| ipfilters := ipfilters w; numipfilters := numipfilters w;
       console := console w;
       files := (name, f) :: List.filter
                  (fun p => negb (String.eqb (fst p) name)) (files w) |}.

(** *** Svcmd_Itemlist_f *)

(** The item table and its type are declared outside the sources at hand;
    the source reads one field of an item, its [classname]. *)
Variable gitem_t : Type.
Variable classname : gitem_t -> string.

(** The loop from index [j] on, over the first [num_items] items of
    [itemlist].  The source reads [itemlist[j]] without a test; past the end
    of the table the model prints an empty name. *)
Equations? Svcmd_Itemlist_f_loop (num_items : Z) (itemlist : list gitem_t)
    (j : nat) (w : world) : world
  by wf (Z.to_nat (num_items - Z.of_nat j)) lt :=
  Svcmd_Itemlist_f_loop num_items itemlist j w
    with Z_lt_dec (Z.of_nat j) num_items => {
    | right _ := w;
    | left _ :=
        Svcmd_Itemlist_f_loop num_items itemlist (S j)
          (cprintf ("ITEM_"
                    +:+ from_option classname EmptyString (itemlist !! j)
                    +:+ "," +:+ nl) w) }.
Proof. lia. Qed.

(** [num_items] is [game.num_items]; the loop starts at index one. *)
Definition Svcmd_Itemlist_f (num_items : Z) (itemlist : list gitem_t)
    (w : world) : world :=
  Svcmd_Itemlist_f_loop num_items itemlist 1 w.

(** *** ServerCommand *)

(** The string comparison without case of the game library, the [atoi] of
    the C library and the command handler of the match code are defined
    outside the sources at hand.  [TDM_ServerCommand] answers whether it
    took the command and may change the globals either way. *)
Variable Q_stricmp : string -> string -> Z.
Variable atoi : string -> Z.
Variable TDM_ServerCommand : string -> world -> bool * world.

Definition dquote : string := String "034"%char EmptyString.

(** [argv] is [gi.argv]; [t1] and [t2] are the clock readings of the
    command that runs, in the order it makes them; the console variables,
    the item table and the state of the disk are as for the commands. *)
Definition ServerCommand (argv : nat -> string) (t1 t2 : Z)
    (filterban game : cvar_t) (fopen_ok : bool)
    (num_items : Z) (itemlist : list gitem_t) (w : world) : world :=
  let cmd := argv 1%nat in
  if Q_stricmp cmd "itemlist" =? 0 then
    Svcmd_Itemlist_f num_items itemlist w
  else if Q_stricmp cmd "addip" =? 0 then
    SVCmd_AddIP_f t1 t2 None (argv 2%nat) (atoi (argv 3%nat)) w
  else if Q_stricmp cmd "removeip" =? 0 then
    SVCmd_RemoveIP_f t1 None (argv 2%nat) w
  else if Q_stricmp cmd "listip" =? 0 then
    SVCmd_ListIP_f t1 t2 None w
  else if Q_stricmp cmd "writeip" =? 0 then
    SVCmd_WriteIP_f t1 filterban game fopen_ok w
  else
    let '(taken, w) := TDM_ServerCommand cmd w in
    if taken then w
    else
      cprintf ("Unknown server command " +:+ dquote +:+ cmd +:+ dquote
               +:+ nl) w.

End Commands.

(** ** The address library

    Modelled from the spec: [net_parseIPAddressMask], [net_contains] and
    [IPMASK] are defined outside the sources at hand.  The definitions of
    this module follow the spec's words (section 4.1): a text is a bare
    address or [address/prefixLength], of either family; a bare address has
    the full width as its prefix; a mask contains a candidate when both are
    of one family and agree on the leading [prefixLength] bits.  They serve
    as an instance of the parameters of the commands. *)

Module Net.

Fixpoint split_on (c : ascii) (s : string) : list string :=
  match s with
  | EmptyString => [EmptyString]
  | String x r =>
      if Ascii.eqb x c then EmptyString :: split_on c r
      else match split_on c r with
           | h :: t => String x h :: t
           | [] => [String x EmptyString]
           end
  end.

Definition digit_of (base : Z) (x : ascii) : option Z :=
  let n := Z.of_nat (nat_of_ascii x) in
  if (48 <=? n) && (n <=? 57) then Some (n - 48)
  else if (base =? 16) && (97 <=? n) && (n <=? 102) then Some (n - 87)
  else if (base =? 16) && (65 <=? n) && (n <=? 70) then Some (n - 55)
  else None.

Fixpoint parse_digits (base acc : Z) (s : string) : option Z :=
  match s with
  | EmptyString => Some acc
  | String x r =>
      d ← digit_of base x; parse_digits base (acc * base + d) r
  end.

Definition parse_num (base : Z) (s : string) : option Z :=
  if s is EmptyString then None else parse_digits base 0 s.

Definition parse_v4 (s : string) : option (list Z) :=
  let parts := split_on "." s in
  if decide (length parts = 4%nat) then
    bs ← mapM (parse_num 10) parts;
    if forallb (fun b => b <=? 255) bs then Some bs else None
  else None.

(** The text before and after the first [::]. *)
Fixpoint split_dcolon (s : string) : option (string * string) :=
  match s with
  | EmptyString => None
  | String x r =>
      match r with
      | String y r' =>
          if Ascii.eqb x ":" && Ascii.eqb y ":" then Some (EmptyString, r')
          else '(a, b) ← split_dcolon r; Some (String x a, b)
      | EmptyString => None
      end
  end.

Definition parse_group (g : string) : option Z :=
  if decide (String.length g <= 4)%nat then parse_num 16 g else None.

Definition parse_groups (s : string) : option (list Z) :=
  if s is EmptyString then Some [] else mapM parse_group (split_on ":" s).

Definition bytes_of_groups (gs : list Z) : list Z :=
  gs ≫= (fun g => [g / 256; g mod 256]).

Definition parse_v6 (s : string) : option (list Z) :=
  match split_dcolon s with
  | Some (l, r) =>
      gl ← parse_groups l;
      gr ← parse_groups r;
      let n := (length gl + length gr)%nat in
      if decide (n < 8)%nat
      then Some (bytes_of_groups (gl ++ replicate (8 - n) 0 ++ gr))
      else None
  | None =>
      gs ← parse_groups s;
      if decide (length gs = 8%nat) then Some (bytes_of_groups gs)
      else None
  end.

Definition width (ty : netadrtype_t) : Z :=
  match ty with NA_IP => 32 | NA_IP6 => 128 | NA_UNSPECIFIED => 0 end.

Definition parse_addr (s : string) : option (netadrtype_t * list Z) :=
  match parse_v4 s with
  | Some bs => Some (NA_IP, bs)
  | None => bs ← parse_v6 s; Some (NA_IP6, bs)
  end.

(** Modelled from the spec: [Parse] of section 4.1, a bare address or
    [address/prefixLength] with the prefix length within the width of the
    family. *)
Definition Parse (s : string) : option netadr_t :=
  match split_on "/" s with
  | [a] =>
      '(ty, bs) ← parse_addr a;
      Some {| na_type := ty; na_ip := bs; mask_bits := width ty |}
  | [a; p] =>
      '(ty, bs) ← parse_addr a;
      n ← parse_num 10 p;
      if n <=? width ty
      then Some {| na_type := ty; na_ip := bs; mask_bits := n |}
      else None
  | _ => None
  end.

(** Modelled from the spec: [net_parseIPAddressMask] is defined outside the
    sources at hand.  It returns a [netadr_t] by value; the spec's [Parse]
    decides which texts are addresses, and a text that is none is taken to
    give the all-zero address. *)
Definition net_parseIPAddressMask (s : string) : netadr_t :=
  default zero_addr (Parse s).

Definition bits_of_byte (b : Z) : list bool :=
  (fun k => Z.testbit b k) <$> [7; 6; 5; 4; 3; 2; 1; 0].

Definition bits_of (bs : list Z) : list bool := bs ≫= bits_of_byte.

(** Modelled from the spec: [net_contains] is defined outside the sources at
    hand.  True when mask and candidate are of one family and agree on the
    leading [mask_bits] bits. *)
Definition net_contains (m c : netadr_t) : bool :=
  let n := Z.to_nat (mask_bits m) in
  bool_decide (na_type m = na_type c)
  && bool_decide (take n (bits_of (na_ip m)) = take n (bits_of (na_ip c))).

Definition join (sep : string) (l : list string) : string :=
  match l with
  | [] => EmptyString
  | x :: r => foldl (fun acc y => acc +:+ sep +:+ y) x r
  end.

Definition hex_digit (d : Z) : ascii :=
  ascii_of_nat (Z.to_nat (if d <? 10 then 48 + d else 87 + d)).

Fixpoint drop_zeros (ds : list Z) : list Z :=
  match ds with
  | d :: r => if d =? 0 then drop_zeros r else ds
  | [] => []
  end.

(** A group of an IPv6 address in hexadecimal, without leading zeros. *)
Definition hex_of_group (g : Z) : string :=
  let ds := [g / 4096; g / 256 mod 16; g / 16 mod 16; g mod 16] in
  match drop_zeros ds with
  | [] => "0"
  | ds' => string_of_list_ascii (hex_digit <$> ds')
  end.

Fixpoint groups_of_bytes (bs : list Z) : list Z :=
  match bs with
  | hi :: lo :: r => (hi * 256 + lo) :: groups_of_bytes r
  | _ => []
  end.

(** Modelled from the spec: the macro [IPMASK] is defined outside the
    sources at hand.  The rendering [address/prefixLength]. *)
Definition IPMASK (a : netadr_t) : string :=
  match na_type a with
  | NA_IP => join "." (pretty <$> na_ip a) +:+ "/" +:+ pretty (mask_bits a)
  | NA_IP6 =>
      join ":" (hex_of_group <$> groups_of_bytes (na_ip a))
      +:+ "/" +:+ pretty (mask_bits a)
  | NA_UNSPECIFIED => EmptyString
  end.

End Net.

(** ** Vocabulary of the statements *)

(** The counter stays inside the array. *)
Definition store_ok (w : world) : Prop :=
  (numipfilters w <= length (ipfilters w))%nat.

(** An entry the sweep at clock [now] leaves in place. *)
Definition kept (now : Z) (f : ipfilter_t) : Prop := expired now f = false.

#[export] Instance kept_dec (now : Z) (f : ipfilter_t) : Decision (kept now f).
Proof. unfold kept. apply _. Defined.

(** The sentinel of an entry without expiry: [StringToFilter] stores [-1] and
    [SVCmd_ListIP_f] prints such an entry as permanent. *)
Definition permanent (f : ipfilter_t) : Prop := expire f = to_unsigned (-1).

(** The two modes of the list.  With [filterban] set the entries name the
    clients to keep out; with [filterban] zero they name the only clients
    let in. *)
Definition deny_mode (filterban : cvar_t) : Prop := Qnum (value filterban) <> 0.

Definition allow_mode (filterban : cvar_t) : Prop := Qnum (value filterban) = 0.

(** The flag is zero or at least one in magnitude, as [set filterban 0] and
    [set filterban 1] leave it: a value that is not zero does not truncate
    to zero. *)
Definition whole_flag (filterban : cvar_t) : Prop :=
  int_of_float (value filterban) = 0 -> Qnum (value filterban) = 0.

(** [SV_FilterPacket] answers whether the packet is to be filtered out: a
    match under [filterban] returns the flag.  The client is let in when the
    answer is zero. *)
Definition permits (r : Z) : Prop := r = 0.

(** The shape the globals have at program start and keep from then on: the
    array has its [cap] slots, the counter stays within them and every slot
    past the counter holds the all-zero entry. *)
Definition wf_store (cap : nat) (w : world) : Prop :=
  length (ipfilters w) = cap /\ (numipfilters w <= cap)%nat /\
  forall j : nat, (numipfilters w <= j < cap)%nat ->
                  ipfilters w !! j = Some zero_filter.

(** ** Stores to run the commands on *)

(** The globals at program start: a zeroed array of [cap] slots, nothing
    printed and nothing written. *)
Definition boot (cap : nat) : world :=
  {| ipfilters := replicate cap zero_filter; numipfilters := 0;
     console := []; files := [] |}.

(** [sv addip] typed at the server console at clock [t], against the
    address library of [Net]. *)
Definition addip (cap : nat) (t : Z) (ip : string) (minutes : Z) (w : world)
  : world :=
  SVCmd_AddIP_f cap Net.net_parseIPAddressMask unit t t None ip minutes w.

(** A list of four slots after three commands at clock 1000: a permanent
    host entry, a one-minute entry and a permanent network entry. *)
Definition three_bans : world :=
  addip 4 1000 "198.51.100.0/24" 0
    (addip 4 1000 "203.0.113.2" 1
       (addip 4 1000 "203.0.113.1" 0 (boot 4))).

(** The same three entries, added in another order. *)
Definition three_bans_reordered : world :=
  addip 4 1000 "203.0.113.1" 0
    (addip 4 1000 "198.51.100.0/24" 0
       (addip 4 1000 "203.0.113.2" 1 (boot 4))).

(** [sv removeip] and [sv writeip] at the server console. *)
Definition removeip (t : Z) (ip : string) (w : world) : world :=
  SVCmd_RemoveIP_f Net.net_parseIPAddressMask Net.IPMASK unit t None ip w.

Definition writeip (t : Z) (filterban : cvar_t) (w : world) : world :=
  SVCmd_WriteIP_f Net.IPMASK "opentdm" 64 t filterban
    {| cv_string := EmptyString; value := 0 # 1 |} true w.

(** A list of two slots, both taken by permanent entries. *)
Definition full_bans : world :=
  addip 2 1000 "203.0.113.2" 0 (addip 2 1000 "203.0.113.1" 0 (boot 2)).

(** A list of two slots, both taken, one of them by a one-minute entry. *)
Definition full_timed : world :=
  addip 2 1000 "203.0.113.2" 1 (addip 2 1000 "203.0.113.1" 0 (boot 2)).

(** [sv listip] at the server console, both clock readings at [t]. *)
Definition listip (t : Z) (w : world) : world :=
  SVCmd_ListIP_f Net.IPMASK unit t t None w.

(** An instance of the remaining parameters, to run [ServerCommand] on: a
    comparison of texts that takes no notice of the case of the letters of
    ASCII, a decimal [atoi], a match code that takes no command, arguments
    given as a list (an argument past the end reads as the empty text) and a
    table of three items, named by their class names, the first without
    one. *)
Module Sv.

Definition lower (c : ascii) : ascii :=
  let n := nat_of_ascii c in
  if (65 <=? n)%nat && (n <=? 90)%nat then ascii_of_nat (n + 32) else c.

Fixpoint Q_stricmp (s1 s2 : string) : Z :=
  match s1, s2 with
  | EmptyString, EmptyString => 0
  | String a r1, String b r2 =>
      if Ascii.eqb (lower a) (lower b) then Q_stricmp r1 r2 else -1
  | _, _ => -1
  end.

Fixpoint atoi_digits (acc : Z) (s : string) : Z :=
  match s with
  | EmptyString => acc
  | String x r =>
      match Net.digit_of 10 x with
      | Some d => atoi_digits (acc * 10 + d) r
      | None => acc
      end
  end.

Definition atoi (s : string) : Z :=
  match s with
  | String "-" r => - atoi_digits 0 r
  | _ => atoi_digits 0 s
  end.

Definition TDM_ServerCommand (cmd : string) (w : world) : bool * world :=
  (false, w).

Definition argv (args : list string) (n : nat) : string :=
  default EmptyString (args !! n).

Definition itemlist : list string :=
  [EmptyString; "weapon_shotgun"; "ammo_shells"].

(** The command line [args] typed at clock [t] with [filterban 1]. *)
Definition run (args : list string) (t : Z) (w : world) : world :=
  ServerCommand 4 Net.net_parseIPAddressMask Net.IPMASK "opentdm" 64 unit
    string id Q_stricmp atoi TDM_ServerCommand (argv args) t t
    {| cv_string := "1"; value := 1 # 1 |}
    {| cv_string := EmptyString; value := 0 # 1 |} true 3 itemlist w.

End Sv.

Definition filterban_on : cvar_t := {| cv_string := "1"; value := 1 # 1 |}.

Definition filterban_off : cvar_t := {| cv_string := "0"; value := 0 # 1 |}.

(** * Properties *)

(** ** Machine integers *)

Lemma to_unsigned_range (z : Z) : 0 <= to_unsigned z < 2 ^ 32.
Proof. unfold to_unsigned. apply Z.mod_pos_bound. lia. Qed.

(** [i--] followed by [i++] on an [unsigned] gives [i] back, also when the
    decrement wraps around at zero. *)
Lemma unsigned_dec_inc (i : Z) :
  0 <= i < 2 ^ 32 -> to_unsigned (to_unsigned (i - 1) + 1) = i.
Proof.
  intros Hi. unfold to_unsigned.
  rewrite Zplus_mod_idemp_l. replace (i - 1 + 1) with i by lia.
  by apply Z.mod_small.
Qed.

(** ** The address library *)

Example Net_host_mask :
  Net.net_contains (Net.net_parseIPAddressMask "192.0.2.5")
                   (Net.net_parseIPAddressMask "192.0.2.5") = true /\
  Net.net_contains (Net.net_parseIPAddressMask "192.0.2.5")
                   (Net.net_parseIPAddressMask "192.0.2.6") = false.
Proof. by vm_compute. Qed.

Example Net_network_mask :
  Net.net_contains (Net.net_parseIPAddressMask "192.0.2.0/24")
                   (Net.net_parseIPAddressMask "192.0.2.200") = true /\
  Net.net_contains (Net.net_parseIPAddressMask "192.0.2.0/24")
                   (Net.net_parseIPAddressMask "192.0.3.1") = false /\
  Net.net_contains (Net.net_parseIPAddressMask "2002:db8::/64")
                   (Net.net_parseIPAddressMask "2002:db8::b00b:face") = true /\
  Net.net_contains (Net.net_parseIPAddressMask "2002:db8::/64")
                   (Net.net_parseIPAddressMask "192.0.2.5") = false.
Proof. by vm_compute. Qed.

Example Net_format_parses_back :
  Net.Parse (Net.IPMASK (Net.net_parseIPAddressMask "192.0.2.0/24"))
    = Net.Parse "192.0.2.0/24" /\
  Net.Parse (Net.IPMASK (Net.net_parseIPAddressMask "2002:db8::b00b:face"))
    = Net.Parse "2002:db8::b00b:face".
Proof. by vm_compute. Qed.

(** ** The array and its counter *)

Lemma boot_store_ok (cap : nat) : store_ok (boot cap).
Proof. unfold store_ok. simpl. lia. Qed.

Lemma live_length (w : world) :
  store_ok w -> length (live w) = numipfilters w.
Proof. unfold store_ok, live. intros H. by rewrite length_take_le. Qed.

Lemma live_lookup (w : world) (i : nat) :
  (i < numipfilters w)%nat -> live w !! i = ipfilters w !! i.
Proof. intros H. unfold live. by rewrite lookup_take_lt. Qed.

Lemma live_lookup_total (w : world) (i : nat) :
  (i < numipfilters w)%nat -> live w !!! i = ipfilters w !!! i.
Proof. intros H. unfold live. by rewrite lookup_total_take_lt. Qed.

Lemma RemoveIP_numipfilters (i : nat) (w : world) :
  numipfilters (RemoveIP i w) = (numipfilters w - 1)%nat.
Proof. reflexivity. Qed.

Lemma RemoveIP_length (i : nat) (w : world) :
  length (ipfilters (RemoveIP i w)) = length (ipfilters w).
Proof. simpl. by rewrite !length_insert. Qed.

Lemma RemoveIP_store_ok (i : nat) (w : world) :
  store_ok w -> store_ok (RemoveIP i w).
Proof.
  unfold store_ok. rewrite RemoveIP_length, RemoveIP_numipfilters. lia.
Qed.

(** Swap removal on the entries in use: the last one is written over
    position [i] and the list is cut by one. *)
Lemma live_RemoveIP (i : nat) (w : world) :
  store_ok w -> (i < numipfilters w)%nat ->
  live (RemoveIP i w) =
  take (numipfilters w - 1)
       (<[ i := live w !!! (numipfilters w - 1)%nat ]> (live w)).
Proof.
  intros Hok Hi. unfold live at 1. simpl.
  rewrite (take_insert_ge _ _ (numipfilters w - 1)) by lia.
  rewrite live_lookup_total by lia.
  unfold live. rewrite <- take_insert_lt by lia.
  rewrite take_take. f_equal. lia.
Qed.

(** The list lemma behind swap removal: up to order, the result is the
    list without the element at [i]. *)
Lemma swap_remove_Permutation (l : list ipfilter_t) (i : nat) (x : ipfilter_t) :
  l !! i = Some x ->
  l ≡ₚ x :: take (length l - 1) (<[ i := l !!! (length l - 1)%nat ]> l).
Proof.
  intros Hx. destruct l as [|y l'] using rev_ind; [done|]. clear IHl'.
  rewrite length_app. simpl.
  replace (length l' + 1 - 1)%nat with (length l') by lia.
  rewrite lookup_total_app_r by lia. rewrite Nat.sub_diag. simpl.
  destruct (decide (i < length l')%nat) as [Hlt|Hge].
  - rewrite insert_app_l by done.
    rewrite take_app_length' by (by rewrite length_insert).
    rewrite lookup_app_l in Hx by done.
    rewrite <- (take_drop_middle l' i x Hx) at 1.
    rewrite insert_take_drop by done.
    solve_Permutation.
  - apply lookup_lt_Some in Hx as Hlen.
    rewrite length_app in Hlen. simpl in Hlen.
    assert (i = length l') as -> by lia.
    rewrite list_lookup_middle in Hx by done. simplify_eq.
    rewrite insert_app_r_alt by lia. rewrite Nat.sub_diag. simpl.
    rewrite take_app_length.
    by rewrite <- Permutation_cons_append.
Qed.

(** ** The sweep *)

(** What a run of the loop from index [i] leaves behind. *)
Definition sweep_post (now : Z) (i : nat) (w r : world) : Prop :=
  store_ok r /\
  length (ipfilters r) = length (ipfilters w) /\
  console r = console w /\ files r = files w /\
  take i (live r) = take i (live w) /\
  drop i (live r) ≡ₚ filter (kept now) (drop i (live w)).

Lemma live_RemoveIP_take (i : nat) (w : world) :
  store_ok w -> (i < numipfilters w)%nat ->
  take i (live (RemoveIP i w)) = take i (live w).
Proof.
  intros Hok Hi. rewrite live_RemoveIP by done.
  rewrite take_take, Nat.min_l by lia.
  by rewrite take_insert_ge.
Qed.

Lemma live_RemoveIP_Permutation (i : nat) (w : world) :
  store_ok w -> (i < numipfilters w)%nat ->
  live w ≡ₚ ipfilters w !!! i :: live (RemoveIP i w).
Proof.
  intros Hok Hi. rewrite live_RemoveIP by done.
  rewrite <- (live_length w) by done.
  apply swap_remove_Permutation.
  rewrite <- live_lookup_total by done.
  apply list_lookup_lookup_total_lt. rewrite live_length by done. lia.
Qed.

Lemma live_RemoveIP_drop (i : nat) (w : world) :
  store_ok w -> (i < numipfilters w)%nat ->
  drop i (live w) ≡ₚ ipfilters w !!! i :: drop i (live (RemoveIP i w)).
Proof.
  intros Hok Hi.
  apply (Permutation_app_inv_l (take i (live w))).
  rewrite take_drop, <- Permutation_middle.
  rewrite <- (live_RemoveIP_take i w) by done.
  rewrite take_drop. by apply live_RemoveIP_Permutation.
Qed.

Lemma TDM_CheckBans_loop_post (now : Z) (i : nat) (w : world) :
  store_ok w -> (i <= numipfilters w)%nat ->
  sweep_post now i w (TDM_CheckBans_loop now i w).
Proof.
  funelim (TDM_CheckBans_loop now i w).
  all: intros Hok Hi.
  - repeat split; try done.
    rewrite drop_ge by (rewrite live_length; [lia|done]). done.
  - destruct H as (Hok' & Hlen & Hcon & Hfil & Htake & Hdrop).
    { by apply RemoveIP_store_ok. }
    { rewrite RemoveIP_numipfilters. lia. }
    repeat split; try done.
    + by rewrite Hlen, RemoveIP_length.
    + by rewrite Htake, live_RemoveIP_take.
    + rewrite Hdrop. rewrite (live_RemoveIP_drop i w) by done.
      rewrite filter_cons_False; [done|].
      unfold kept. by rewrite Heq.
  - destruct H as (Hok' & Hlen & Hcon & Hfil & Htake & Hdrop); [done|lia|].
    assert (live w !! i = Some (ipfilters w !!! i)) as Hx.
    { rewrite <- live_lookup_total by done.
      apply list_lookup_lookup_total_lt. rewrite live_length by done. lia. }
    assert (live (TDM_CheckBans_loop now (S i) w) !! i
            = Some (ipfilters w !!! i)) as Hy.
    { rewrite <- (lookup_take_lt _ (S i)) by lia.
      rewrite Htake. by rewrite lookup_take_lt by lia. }
    repeat split; try done.
    + apply (f_equal (take i)) in Htake.
      by rewrite !take_take, !Nat.min_l in Htake by lia.
    + rewrite (drop_S _ _ _ Hx), (drop_S _ _ _ Hy), Hdrop.
      rewrite filter_cons_True; [done|]. exact Heq.
Qed.

Lemma TDM_CheckBans_post (t : Z) (w : world) :
  store_ok w ->
  sweep_post (to_unsigned t) 0 w (TDM_CheckBans t w).
Proof. intros Hok. apply TDM_CheckBans_loop_post; [done|lia]. Qed.

Lemma TDM_CheckBans_live (t : Z) (w : world) :
  store_ok w ->
  live (TDM_CheckBans t w) ≡ₚ filter (kept (to_unsigned t)) (live w).
Proof.
  intros Hok. destruct (TDM_CheckBans_post t w Hok) as (_ & _ & _ & _ & _ & H).
  by rewrite !drop_0 in H.
Qed.

Lemma kept_iff (now : Z) (f : ipfilter_t) :
  kept now f <-> ~ (expire f <> 0 /\ expire f < now).
Proof.
  unfold kept, expired.
  rewrite andb_false_iff, negb_false_iff, Z.eqb_eq, Z.ltb_ge. lia.
Qed.

Lemma RemoveIP_lookup_moved (i : nat) (w : world) :
  store_ok w -> (i < numipfilters w - 1)%nat ->
  ipfilters (RemoveIP i w) !! i = ipfilters w !! (numipfilters w - 1)%nat.
Proof.
  intros Hok Hi. simpl.
  rewrite list_lookup_insert_ne by lia.
  rewrite list_lookup_insert_eq by (unfold store_ok in Hok; lia).
  symmetry. apply list_lookup_lookup_total_lt. unfold store_ok in Hok. lia.
Qed.

Lemma RemoveIP_lookup_other (i j : nat) (w : world) :
  (j < numipfilters w - 1)%nat -> j <> i ->
  ipfilters (RemoveIP i w) !! j = ipfilters w !! j.
Proof.
  intros Hj Hne. simpl. by rewrite !list_lookup_insert_ne by lia.
Qed.

(** C8 -- [RemoveIP] at a valid index [i] moves the last entry in use into
    slot [i], leaves every other slot in use as it was and lowers the counter
    by one; up to order, the entries in use afterwards are the former ones
    without the entry that was at [i]. *)
Theorem RemoveIP_removes_entry (i : nat) (w : world) :
  store_ok w -> (i < numipfilters w)%nat ->
  S (numipfilters (RemoveIP i w)) = numipfilters w /\
  ((i < numipfilters w - 1)%nat ->
   ipfilters (RemoveIP i w) !! i = ipfilters w !! (numipfilters w - 1)%nat) /\
  (forall j : nat, (j < numipfilters w - 1)%nat -> j <> i ->
   ipfilters (RemoveIP i w) !! j = ipfilters w !! j) /\
  live w ≡ₚ ipfilters w !!! i :: live (RemoveIP i w).
Proof.
  intros Hok Hi. repeat split.
  - rewrite RemoveIP_numipfilters. lia.
  - intros Hlt. by apply RemoveIP_lookup_moved.
  - intros j Hj Hne. by apply RemoveIP_lookup_other.
  - by apply live_RemoveIP_Permutation.
Qed.

Lemma RemoveIP_removes_entry_witness :
  store_ok three_bans /\ (0 < numipfilters three_bans)%nat /\
  live three_bans
    ≡ₚ ipfilters three_bans !!! 0%nat :: live (RemoveIP 0 three_bans).
Proof.
  assert (store_ok three_bans) as Hok by (vm_compute; lia).
  assert (0 < numipfilters three_bans)%nat as Hi by (vm_compute; lia).
  split; [exact Hok|]. split; [exact Hi|].
  exact (proj2 (proj2 (proj2 (RemoveIP_removes_entry 0 three_bans Hok Hi)))).
Defined.

(** The permanent sentinel is the largest [unsigned]: no clock exceeds it. *)
Lemma permanent_kept (t : Z) (f : ipfilter_t) :
  permanent f -> kept (to_unsigned t) f.
Proof.
  unfold permanent. intros Hf. apply kept_iff. rewrite Hf.
  pose proof (to_unsigned_range t). change (to_unsigned (-1)) with 4294967295.
  lia.
Qed.

Lemma TDM_CheckBans_elem_of (t : Z) (w : world) (f : ipfilter_t) :
  store_ok w ->
  f ∈ live (TDM_CheckBans t w) <-> kept (to_unsigned t) f /\ f ∈ live w.
Proof.
  intros Hok. rewrite TDM_CheckBans_live by done. apply list_elem_of_filter.
Qed.

(** C4 -- one run of [TDM_CheckBans] drops exactly the entries that pass the
    test of the sweep (expiry not zero and below the clock) and keeps, up to
    order, all the others, the permanent ones among them; and when the loop
    removes the entry at [i] it goes on at the same index [i], where the
    previously last entry now stands. *)
Theorem TDM_CheckBans_removes_expired (t : Z) (w : world) :
  store_ok w ->
  live (TDM_CheckBans t w) ≡ₚ
    filter (fun f => ~ (expire f <> 0 /\ expire f < to_unsigned t)) (live w) /\
  (forall f : ipfilter_t,
     permanent f -> f ∈ live w -> f ∈ live (TDM_CheckBans t w)) /\
  (forall (i : nat) (v : world),
     store_ok v -> (i < numipfilters v)%nat ->
     expired (to_unsigned t) (ipfilters v !!! i) = true ->
     TDM_CheckBans_loop (to_unsigned t) i v
       = TDM_CheckBans_loop (to_unsigned t) i (RemoveIP i v) /\
     ((i < numipfilters v - 1)%nat ->
      ipfilters (RemoveIP i v) !! i = ipfilters v !! (numipfilters v - 1)%nat)).
Proof.
  intros Hok. split; [|split].
  - rewrite TDM_CheckBans_live by done.
    erewrite list_filter_iff; [done|]. intros f. apply kept_iff.
  - intros f Hperm Hin. apply TDM_CheckBans_elem_of; [done|].
    split; [by apply permanent_kept|done].
  - intros i v Hv Hi Hexp. split.
    + funelim (TDM_CheckBans_loop (to_unsigned t) i v); try done; congruence.
    + intros Hlt. by apply RemoveIP_lookup_moved.
Qed.

Lemma TDM_CheckBans_removes_expired_witness :
  store_ok three_bans /\
  live (TDM_CheckBans 1061 three_bans) ≡ₚ
    filter (fun f => ~ (expire f <> 0 /\ expire f < to_unsigned 1061))
           (live three_bans).
Proof.
  assert (store_ok three_bans) as Hok by (vm_compute; lia).
  split; [exact Hok|].
  exact (proj1 (TDM_CheckBans_removes_expired 1061 three_bans Hok)).
Defined.

Lemma TDM_CheckBans_loop_numipfilters (now : Z) (i : nat) (w : world) :
  (numipfilters (TDM_CheckBans_loop now i w) <= numipfilters w)%nat.
Proof.
  funelim (TDM_CheckBans_loop now i w); [lia| |done].
  rewrite RemoveIP_numipfilters in H. lia.
Qed.

(** A sweep that leaves the counter as it was has touched nothing. *)
Lemma TDM_CheckBans_loop_id (now : Z) (i : nat) (w : world) :
  numipfilters (TDM_CheckBans_loop now i w) = numipfilters w ->
  TDM_CheckBans_loop now i w = w.
Proof.
  funelim (TDM_CheckBans_loop now i w); [done| |done].
  intros Hnum.
  pose proof (TDM_CheckBans_loop_numipfilters now i (RemoveIP i w)) as Hle.
  rewrite RemoveIP_numipfilters in Hle. lia.
Qed.

(** The sweep prints nothing and writes no file. *)
Lemma TDM_CheckBans_loop_console (now : Z) (i : nat) (w : world) :
  console (TDM_CheckBans_loop now i w) = console w /\
  files (TDM_CheckBans_loop now i w) = files w.
Proof. funelim (TDM_CheckBans_loop now i w); done. Qed.

Lemma TDM_CheckBans_store_ok (t : Z) (w : world) :
  store_ok w -> store_ok (TDM_CheckBans t w).
Proof. intros Hok. by destruct (TDM_CheckBans_post t w Hok). Qed.

Lemma TDM_CheckBans_length (t : Z) (w : world) :
  store_ok w ->
  length (ipfilters (TDM_CheckBans t w)) = length (ipfilters w).
Proof. intros Hok. by destruct (TDM_CheckBans_post t w Hok) as (_ & ? & _). Qed.

Lemma sweeps_keep_permanent (ts : list Z) (w : world) (f : ipfilter_t) :
  store_ok w -> permanent f -> f ∈ live w ->
  f ∈ live (foldl (fun v t => TDM_CheckBans t v) w ts).
Proof.
  revert w. induction ts as [|t ts IH]; intros w Hok Hperm Hin; [done|].
  simpl. apply IH; [by apply TDM_CheckBans_store_ok|done|].
  apply TDM_CheckBans_elem_of; [done|]. split; [|done].
  by apply permanent_kept.
Qed.

(** ** Adding an entry *)

Section AddIP.

Variable MAX_IPFILTERS : nat.
Variable net_parseIPAddressMask : string -> netadr_t.
Variable edict_t : Type.

Local Abbreviation AddIP :=
  (SVCmd_AddIP_f MAX_IPFILTERS net_parseIPAddressMask edict_t).

(** With a text and a free slot the command stores what [StringToFilter]
    built, whatever the parser made of the text. *)
Lemma SVCmd_AddIP_f_inserts (t_sweep t_parse : Z) (ent : option edict_t)
    (ip : string) (expiry : Z) (w : world) :
  ip <> EmptyString ->
  numipfilters (TDM_CheckBans t_sweep w) <> MAX_IPFILTERS ->
  AddIP t_sweep t_parse ent ip expiry w =
  let w1 := TDM_CheckBans t_sweep w in
  set_filters
    (<[ numipfilters w1 :=
          (StringToFilter net_parseIPAddressMask t_parse ip
             (to_int (expiry * 60))).2 ]> (ipfilters w1))
    (S (numipfilters w1)) w1.
Proof.
  intros Hip Hfull. unfold SVCmd_AddIP_f.
  rewrite decide_False by done. simpl.
  by rewrite decide_False by done.
Qed.

Lemma live_set_filters_append (f : ipfilter_t) (w : world) :
  (numipfilters w < length (ipfilters w))%nat ->
  live (set_filters (<[ numipfilters w := f ]> (ipfilters w))
          (S (numipfilters w)) w) = live w ++ [f].
Proof.
  intros Hlt. unfold live. simpl.
  erewrite take_S_r by (by apply list_lookup_insert_eq).
  by rewrite take_insert_ge.
Qed.

Lemma SVCmd_AddIP_f_live (t_sweep t_parse : Z) (ent : option edict_t)
    (ip : string) (expiry : Z) (w : world) :
  ip <> EmptyString -> store_ok w ->
  length (ipfilters w) = MAX_IPFILTERS ->
  numipfilters (TDM_CheckBans t_sweep w) <> MAX_IPFILTERS ->
  store_ok (AddIP t_sweep t_parse ent ip expiry w) /\
  live (AddIP t_sweep t_parse ent ip expiry w) =
  live (TDM_CheckBans t_sweep w)
  ++ [(StringToFilter net_parseIPAddressMask t_parse ip
         (to_int (expiry * 60))).2].
Proof.
  intros Hip Hok Hlen Hfull.
  rewrite SVCmd_AddIP_f_inserts by done. cbv zeta.
  pose proof (TDM_CheckBans_store_ok t_sweep w Hok) as Hok1.
  pose proof (TDM_CheckBans_length t_sweep w Hok) as Hlen1.
  unfold store_ok in Hok1.
  split.
  - unfold store_ok. simpl. rewrite length_insert. lia.
  - apply live_set_filters_append. lia.
Qed.

(** C2 -- with a duration of zero [StringToFilter] stores the sentinel
    of a permanent entry for every text, never a time stamp; the entry
    [SVCmd_AddIP_f] appends with it fails the test of the sweep at every
    clock and is still in the list after any number of sweeps. *)
Theorem zero_duration_is_forever (t_sweep t_parse : Z)
    (ent : option edict_t) (ip : string) (w : world) :
  ip <> EmptyString -> store_ok w ->
  length (ipfilters w) = MAX_IPFILTERS ->
  numipfilters (TDM_CheckBans t_sweep w) <> MAX_IPFILTERS ->
  (forall (time : Z) (s : string),
     StringToFilter net_parseIPAddressMask time s 0 =
     (true, {| addr := net_parseIPAddressMask s; expire := 4294967295 |})) /\
  let f := {| addr := net_parseIPAddressMask ip; expire := 4294967295 |} in
  permanent f /\
  live (AddIP t_sweep t_parse ent ip 0 w) =
    live (TDM_CheckBans t_sweep w) ++ [f] /\
  (forall t : Z, expired (to_unsigned t) f = false) /\
  (forall ts : list Z,
     f ∈ live (foldl (fun v t => TDM_CheckBans t v)
                 (AddIP t_sweep t_parse ent ip 0 w) ts)).
Proof.
  intros Hip Hok Hlen Hfull.
  destruct (SVCmd_AddIP_f_live t_sweep t_parse ent ip 0 w Hip Hok Hlen Hfull)
    as [Hok' Hlive].
  split; [done|]. cbv zeta.
  assert (permanent
            {| addr := net_parseIPAddressMask ip; expire := 4294967295 |})
    as Hperm by done.
  repeat split; try done.
  - intros t. by apply (permanent_kept t) in Hperm.
  - intros ts. apply sweeps_keep_permanent; [done|done|].
    rewrite Hlive. apply elem_of_app. right. by apply list_elem_of_singleton.
Qed.

(** C3 -- [StringToFilter] reports success for every text, so
    [SVCmd_AddIP_f] never takes its failure branch: with any text at all
    and a free slot it stores one more entry and prints nothing,
    whatever the parser made of the text. *)
Theorem SVCmd_AddIP_f_never_rejects (t_sweep t_parse : Z)
    (ent : option edict_t) (ip : string) (expiry : Z) (w : world) :
  ip <> EmptyString ->
  numipfilters (TDM_CheckBans t_sweep w) <> MAX_IPFILTERS ->
  (StringToFilter net_parseIPAddressMask t_parse ip
     (to_int (expiry * 60))).1 = true /\
  numipfilters (AddIP t_sweep t_parse ent ip expiry w) =
    S (numipfilters (TDM_CheckBans t_sweep w)) /\
  console (AddIP t_sweep t_parse ent ip expiry w) = console w.
Proof.
  intros Hip Hfull. rewrite SVCmd_AddIP_f_inserts by done.
  repeat split. simpl.
  apply TDM_CheckBans_loop_console.
Qed.

(** C6 -- when the list is full after the sweep, [SVCmd_AddIP_f] only
    prints that the list is full: the array and the counter are what they
    were before the call. *)
Theorem SVCmd_AddIP_f_full (t_sweep t_parse : Z) (ent : option edict_t)
    (ip : string) (expiry : Z) (w : world) :
  ip <> EmptyString -> store_ok w ->
  length (ipfilters w) = MAX_IPFILTERS ->
  numipfilters (TDM_CheckBans t_sweep w) = MAX_IPFILTERS ->
  AddIP t_sweep t_parse ent ip expiry w =
    cprintf ("IP filter list is full" +:+ nl) w /\
  ipfilters (AddIP t_sweep t_parse ent ip expiry w) = ipfilters w /\
  numipfilters (AddIP t_sweep t_parse ent ip expiry w) = numipfilters w /\
  live (AddIP t_sweep t_parse ent ip expiry w) = live w.
Proof.
  intros Hip Hok Hlen Hfull.
  assert (TDM_CheckBans t_sweep w = w) as Hid.
  { apply TDM_CheckBans_loop_id.
    pose proof (TDM_CheckBans_loop_numipfilters (to_unsigned t_sweep) 0 w).
    unfold TDM_CheckBans, store_ok in *. lia. }
  assert (AddIP t_sweep t_parse ent ip expiry w =
          cprintf ("IP filter list is full" +:+ nl) w) as ->.
  { unfold SVCmd_AddIP_f. rewrite decide_False by done. simpl.
    rewrite decide_True by done. by rewrite Hid. }
  done.
Qed.

End AddIP.

Lemma zero_duration_is_forever_witness :
  let w := addip 4 1000 "203.0.113.1" 0 (boot 4) in
  let f := {| addr := Net.net_parseIPAddressMask "203.0.113.1";
              expire := 4294967295 |} in
  f ∈ live (foldl (fun v t => TDM_CheckBans t v) w
              [2000; 4294967295; 8589934591]).
Proof.
  assert ("203.0.113.1" <> EmptyString) as Hip by done.
  assert (store_ok (boot 4)) as Hok by (vm_compute; lia).
  assert (length (ipfilters (boot 4)) = 4%nat) as Hlen by reflexivity.
  assert (numipfilters (TDM_CheckBans 1000 (boot 4)) <> 4%nat) as Hfull
    by (vm_compute; lia).
  exact (proj2 (proj2 (proj2 (proj2
    (zero_duration_is_forever 4 Net.net_parseIPAddressMask unit 1000 1000 None
       "203.0.113.1" (boot 4) Hip Hok Hlen Hfull))))
    [2000; 4294967295; 8589934591]).
Defined.

Lemma SVCmd_AddIP_f_never_rejects_witness :
  Net.Parse "not-an-address" = None /\
  numipfilters (addip 4 1000 "not-an-address" 0 (boot 4)) = 1%nat.
Proof.
  split; [reflexivity|].
  assert ("not-an-address" <> EmptyString) as Hip by done.
  assert (numipfilters (TDM_CheckBans 1000 (boot 4)) <> 4%nat) as Hfull
    by (vm_compute; lia).
  exact (proj1 (proj2
    (SVCmd_AddIP_f_never_rejects 4 Net.net_parseIPAddressMask unit 1000 1000
       None "not-an-address" 0 (boot 4) Hip Hfull))).
Defined.

Lemma SVCmd_AddIP_f_full_witness :
  numipfilters full_bans = 2%nat /\
  live (addip 2 1000 "198.51.100.7" 0 full_bans) = live full_bans.
Proof.
  split; [reflexivity|].
  assert ("198.51.100.7" <> EmptyString) as Hip by done.
  assert (store_ok full_bans) as Hok by (vm_compute; lia).
  assert (length (ipfilters full_bans) = 2%nat) as Hlen by reflexivity.
  assert (numipfilters (TDM_CheckBans 1000 full_bans) = 2%nat) as Hfull
    by reflexivity.
  exact (proj2 (proj2 (proj2
    (SVCmd_AddIP_f_full 2 Net.net_parseIPAddressMask unit 1000 1000 None
       "198.51.100.7" 0 full_bans Hip Hok Hlen Hfull)))).
Defined.

(** ** The connect-time test *)

Section FilterPacket.

Variable net_contains : netadr_t -> netadr_t -> bool.

Local Abbreviation FilterPacket := (SV_FilterPacket net_contains).

Lemma SV_FilterPacket_loop_spec (filterban : cvar_t) (a : netadr_t)
    (i : nat) (w : world) :
  store_ok w -> (i <= numipfilters w)%nat ->
  SV_FilterPacket_loop net_contains filterban a i w =
  if bool_decide
       (Exists (fun f => net_contains (addr f) a = true) (drop i (live w)))
  then int_of_float (value filterban)
  else lnot_float (value filterban).
Proof.
  funelim (SV_FilterPacket_loop net_contains filterban a i w).
  all: intros Hok Hi.
  - rewrite drop_ge by (rewrite live_length; [lia|done]).
    rewrite bool_decide_eq_false_2; [done|]. by inversion 1.
  - assert (live w !! i = Some (ipfilters w !!! i)) as Hx.
    { rewrite <- live_lookup_total by done.
      apply list_lookup_lookup_total_lt. rewrite live_length by done. lia. }
    rewrite (drop_S _ _ _ Hx).
    rewrite bool_decide_eq_true_2; [done|]. by apply Exists_cons_hd.
  - assert (live w !! i = Some (ipfilters w !!! i)) as Hx.
    { rewrite <- live_lookup_total by done.
      apply list_lookup_lookup_total_lt. rewrite live_length by done. lia. }
    rewrite H by (done || lia).
    rewrite (drop_S _ _ _ Hx).
    apply (f_equal (fun b : bool => if b then _ else _)).
    apply bool_decide_ext. rewrite Exists_cons.
    split; [by right|]. intros [Hm|?]; [congruence|done].
Qed.

(** The answer names the flag when some entry left by the sweep contains
    the address, and the negated flag when none does. *)
Lemma SV_FilterPacket_result (t : Z) (filterban : cvar_t) (a : netadr_t)
    (w : world) :
  store_ok w ->
  (FilterPacket t filterban a w).1 =
  if bool_decide
       (Exists (fun f => net_contains (addr f) a = true)
               (live (TDM_CheckBans t w)))
  then int_of_float (value filterban)
  else lnot_float (value filterban).
Proof.
  intros Hok. unfold SV_FilterPacket. simpl.
  rewrite SV_FilterPacket_loop_spec;
    [by rewrite drop_0|by apply TDM_CheckBans_store_ok|lia].
Qed.

(** C5 -- [SV_FilterPacket] sweeps first; its answer lets the client in
    exactly when the list is in deny mode and no entry left by the sweep
    contains the address, or the list is in allow mode and some entry left
    by the sweep contains it. *)
Theorem SV_FilterPacket_decision (t : Z) (filterban : cvar_t)
    (a : netadr_t) (w : world) :
  store_ok w -> whole_flag filterban ->
  (FilterPacket t filterban a w).2 = TDM_CheckBans t w /\
  (permits (FilterPacket t filterban a w).1 <->
   (deny_mode filterban /\
    ~ exists f, f ∈ live (TDM_CheckBans t w)
                /\ net_contains (addr f) a = true) \/
   (allow_mode filterban /\
    exists f, f ∈ live (TDM_CheckBans t w)
              /\ net_contains (addr f) a = true)).
Proof.
  intros Hok Hflag. split; [done|].
  rewrite SV_FilterPacket_result by done.
  unfold permits, deny_mode, allow_mode, whole_flag in *.
  rewrite <- Exists_exists.
  assert (Qnum (value filterban) = 0 -> int_of_float (value filterban) = 0)
    as Hzero.
  { unfold int_of_float. intros ->. by rewrite Z.quot_0_l. }
  unfold lnot_float. case_bool_decide as Hex.
  - split; [intros Hr; right; auto|].
    intros [[_ Hn]|[Hz _]]; [done|auto].
  - destruct (Z.eqb_spec (Qnum (value filterban)) 0) as [Hz|Hnz].
    + split; [done|]. intros [[Hd _]|[_ He]]; done.
    + split; [intros _; by left|done].
Qed.

(** C9 -- the test of the sweep is strict: an entry whose expiry equals
    the clock stays in the list and, when it contains the address, makes
    [SV_FilterPacket] answer with the flag at that instant; an entry the
    sweep dropped had an expiry below the clock. *)
Theorem sweep_comparison_is_strict (t : Z) (filterban : cvar_t)
    (a : netadr_t) (w : world) (f : ipfilter_t) :
  store_ok w -> f ∈ live w -> expire f = to_unsigned t ->
  f ∈ live (TDM_CheckBans t w) /\
  (net_contains (addr f) a = true ->
   (FilterPacket t filterban a w).1 = int_of_float (value filterban)) /\
  (forall g : ipfilter_t,
     g ∈ live w -> g ∉ live (TDM_CheckBans t w) ->
     expire g < to_unsigned t).
Proof.
  intros Hok Hin Hexp.
  assert (f ∈ live (TDM_CheckBans t w)) as Hkept.
  { apply TDM_CheckBans_elem_of; [done|]. split; [|done].
    apply kept_iff. lia. }
  split; [done|]. split.
  - intros Hm. rewrite SV_FilterPacket_result by done.
    rewrite bool_decide_eq_true_2; [done|].
    apply Exists_exists. by exists f.
  - intros g Hg Hgone.
    destruct (decide (kept (to_unsigned t) g)) as [Hk|Hk].
    + exfalso. apply Hgone. by apply TDM_CheckBans_elem_of.
    + rewrite kept_iff in Hk. lia.
Qed.

(** C10 -- the answer of [SV_FilterPacket] is the flag when at least one
    entry left by the sweep contains the address and the negated flag
    otherwise, whichever entry it is; two lists with the same entries in
    any order get the same answer. *)
Theorem SV_FilterPacket_order_irrelevant (t : Z) (filterban : cvar_t)
    (a : netadr_t) (w1 w2 : world) :
  store_ok w1 -> store_ok w2 -> live w1 ≡ₚ live w2 ->
  (FilterPacket t filterban a w1).1 = (FilterPacket t filterban a w2).1 /\
  (FilterPacket t filterban a w1).1 =
    if bool_decide
         (Exists (fun f => net_contains (addr f) a = true)
                 (live (TDM_CheckBans t w1)))
    then int_of_float (value filterban)
    else lnot_float (value filterban).
Proof.
  intros Hok1 Hok2 Hperm.
  rewrite !SV_FilterPacket_result by done.
  assert (live (TDM_CheckBans t w1) ≡ₚ live (TDM_CheckBans t w2)) as Hsw.
  { rewrite !TDM_CheckBans_live by done. by rewrite Hperm. }
  split.
  - apply (f_equal (fun b : bool => if b then _ else _)).
    apply bool_decide_ext. by rewrite Hsw.
  - done.
Qed.

(** A flag strictly between zero and one is read as set by the test of
    the negation and as clear by the truncation: the answer is zero with and
    without a match. *)
Remark SV_FilterPacket_fractional_flag (t : Z) (a : netadr_t) (w : world) :
  store_ok w ->
  (FilterPacket t {| cv_string := "0.5"; value := 1 # 2 |} a w).1 = 0.
Proof.
  intros Hok. rewrite SV_FilterPacket_result by done. by case_bool_decide.
Qed.

End FilterPacket.

Lemma SV_FilterPacket_decision_witness :
  store_ok three_bans /\ whole_flag filterban_on /\
  let r := (SV_FilterPacket Net.net_contains 1061 filterban_on
              (Net.net_parseIPAddressMask "198.51.100.5") three_bans).1 in
  let l := live (TDM_CheckBans 1061 three_bans) in
  let a := Net.net_parseIPAddressMask "198.51.100.5" in
  permits r <->
  (deny_mode filterban_on /\
   ~ exists f, f ∈ l /\ Net.net_contains (addr f) a = true) \/
  (allow_mode filterban_on /\
   exists f, f ∈ l /\ Net.net_contains (addr f) a = true).
Proof.
  assert (store_ok three_bans) as Hok by (vm_compute; lia).
  assert (whole_flag filterban_on) as Hflag by (vm_compute; lia).
  split; [exact Hok|]. split; [exact Hflag|].
  exact (proj2 (SV_FilterPacket_decision Net.net_contains 1061 filterban_on
                  (Net.net_parseIPAddressMask "198.51.100.5") three_bans
                  Hok Hflag)).
Defined.

Lemma sweep_comparison_is_strict_witness :
  let f := {| addr := Net.net_parseIPAddressMask "203.0.113.2";
              expire := 1060 |} in
  f ∈ live three_bans /\ f ∈ live (TDM_CheckBans 1060 three_bans).
Proof.
  cbv zeta.
  assert (store_ok three_bans) as Hok by (vm_compute; lia).
  assert ({| addr := Net.net_parseIPAddressMask "203.0.113.2";
             expire := 1060 |} ∈ live three_bans) as Hin.
  { apply (bool_decide_unpack _). vm_compute. exact I. }
  split; [exact Hin|].
  exact (proj1 (sweep_comparison_is_strict Net.net_contains 1060 filterban_on
                  (Net.net_parseIPAddressMask "203.0.113.2") three_bans
                  _ Hok Hin eq_refl)).
Defined.

Lemma SV_FilterPacket_order_irrelevant_witness :
  live three_bans ≡ₚ live three_bans_reordered /\
  (SV_FilterPacket Net.net_contains 1061 filterban_on
     (Net.net_parseIPAddressMask "198.51.100.5") three_bans).1 =
  (SV_FilterPacket Net.net_contains 1061 filterban_on
     (Net.net_parseIPAddressMask "198.51.100.5") three_bans_reordered).1.
Proof.
  assert (store_ok three_bans) as Hok1 by (vm_compute; lia).
  assert (store_ok three_bans_reordered) as Hok2 by (vm_compute; lia).
  assert (live three_bans ≡ₚ live three_bans_reordered) as Hperm.
  { vm_compute. solve_Permutation. }
  split; [exact Hperm|].
  exact (proj1 (SV_FilterPacket_order_irrelevant Net.net_contains 1061
                  filterban_on (Net.net_parseIPAddressMask "198.51.100.5")
                  three_bans three_bans_reordered Hok1 Hok2 Hperm)).
Defined.

(** ** Removing an entry by its text *)

Lemma same_mask_iff (f g : netadr_t) : same_mask f g = true <-> f = g.
Proof.
  unfold same_mask. rewrite andb_true_iff, Z.eqb_eq, bool_decide_eq_true.
  split; [by intros [_ ?]|by intros ->].
Qed.

Section RemoveIP_f.

Variable net_parseIPAddressMask : string -> netadr_t.
Variable IPMASK : netadr_t -> string.
Variable edict_t : Type.

Local Abbreviation RemoveIP_f :=
  (SVCmd_RemoveIP_f net_parseIPAddressMask IPMASK edict_t).

(** The scan from index [i] stops at the first entry with the mask of
    [f], or runs to the end of the list. *)
Lemma SVCmd_RemoveIP_f_loop_spec (ip : string) (f : ipfilter_t) (i : nat)
    (w : world) :
  store_ok w -> (i <= numipfilters w)%nat ->
  (exists (k : nat) (x : ipfilter_t),
     (i <= k)%nat /\ live w !! k = Some x /\ addr x = addr f /\
     (forall (j : nat) (y : ipfilter_t),
        (i <= j < k)%nat -> live w !! j = Some y -> addr y <> addr f) /\
     SVCmd_RemoveIP_f_loop IPMASK ip f i w =
       cprintf ("Removed " +:+ IPMASK (addr f) +:+ nl) (RemoveIP k w)) \/
  ((forall (j : nat) (y : ipfilter_t),
      (i <= j)%nat -> live w !! j = Some y -> addr y <> addr f) /\
   SVCmd_RemoveIP_f_loop IPMASK ip f i w =
     cprintf ("Didn't find " +:+ ip +:+ "." +:+ nl) w).
Proof.
  funelim (SVCmd_RemoveIP_f_loop IPMASK ip f i w).
  all: intros Hok Hi.
  - right. split; [|done]. intros j y Hj Hy.
    apply lookup_lt_Some in Hy. rewrite live_length in Hy by done. lia.
  - left. exists i, (ipfilters w !!! i).
    apply same_mask_iff in Heq.
    repeat split; try done; try lia.
    rewrite <- live_lookup_total by done.
    apply list_lookup_lookup_total_lt. rewrite live_length by done. lia.
  - assert (forall y, live w !! i = Some y -> addr y <> addr f) as Hhere.
    { intros y Hy Heqy.
      rewrite live_lookup in Hy by done.
      apply list_lookup_total_correct in Hy. subst y.
      assert (same_mask (addr f) (addr (ipfilters w !!! i)) = true)
        by (by apply same_mask_iff).
      congruence. }
    destruct H as [(k & x & Hk & Hx & Hax & Hfirst & Hres)|[Hnone Hres]];
      [done|lia| |].
    + left. exists k, x. repeat split; try done; try lia.
      intros j y Hj Hy. destruct (decide (j = i)) as [->|Hne].
      * by apply Hhere.
      * apply (Hfirst j y); [lia|done].
    + right. split; [|done].
      intros j y Hj Hy. destruct (decide (j = i)) as [->|Hne].
      * by apply Hhere.
      * apply (Hnone j y); [lia|done].
Qed.

(** C7 -- for a text that is not empty, [SVCmd_RemoveIP_f] removes the
    first entry left by the sweep whose address record equals the parsed
    one (same prefix length, same bytes) and no other entry; when no entry
    equals it, the command reports that it did not find the text and
    leaves the array and the counter as the sweep left them. *)
Theorem SVCmd_RemoveIP_f_exact_match (t : Z) (ent : option edict_t)
    (ip : string) (w : world) :
  ip <> EmptyString -> store_ok w ->
  let w1 := TDM_CheckBans t w in
  let f := net_parseIPAddressMask ip in
  (exists (k : nat) (x : ipfilter_t),
     live w1 !! k = Some x /\
     mask_bits (addr x) = mask_bits f /\ na_ip (addr x) = na_ip f /\
     addr x = f /\
     (forall (j : nat) (y : ipfilter_t),
        (j < k)%nat -> live w1 !! j = Some y -> addr y <> f) /\
     RemoveIP_f t ent ip w =
       cprintf ("Removed " +:+ IPMASK f +:+ nl) (RemoveIP k w1) /\
     S (numipfilters (RemoveIP_f t ent ip w)) = numipfilters w1 /\
     live w1 ≡ₚ x :: live (RemoveIP_f t ent ip w)) \/
  ((forall y : ipfilter_t, y ∈ live w1 -> addr y <> f) /\
   RemoveIP_f t ent ip w =
     cprintf ("Didn't find " +:+ ip +:+ "." +:+ nl) w1 /\
   numipfilters (RemoveIP_f t ent ip w) = numipfilters w1 /\
   ipfilters (RemoveIP_f t ent ip w) = ipfilters w1).
Proof.
  intros Hip Hok w1 f.
  assert (store_ok w1) as Hok1 by (by apply TDM_CheckBans_store_ok).
  assert (RemoveIP_f t ent ip w =
          SVCmd_RemoveIP_f_loop IPMASK ip
            {| addr := f; expire := to_unsigned (-1) |} 0 w1) as ->.
  { unfold SVCmd_RemoveIP_f. by rewrite decide_False by done. }
  destruct (SVCmd_RemoveIP_f_loop_spec ip
              {| addr := f; expire := to_unsigned (-1) |} 0 w1 Hok1)
    as [(k & x & _ & Hx & Hax & Hfirst & ->)|[Hnone ->]]; [lia| |].
  - simpl in Hax, Hfirst. left. exists k, x.
    assert (k < numipfilters w1)%nat as Hk.
    { apply lookup_lt_Some in Hx. by rewrite live_length in Hx. }
    repeat split; try done; try (by rewrite Hax).
    + intros j y Hj. apply Hfirst. lia.
    + simpl. lia.
    + change (live (cprintf _ (RemoveIP k w1))) with (live (RemoveIP k w1)).
      rewrite live_lookup in Hx by done.
      apply list_lookup_total_correct in Hx. subst x.
      by apply live_RemoveIP_Permutation.
  - simpl in Hnone. right. repeat split; try done.
    intros y Hy. apply list_elem_of_lookup in Hy as [j Hj].
    apply (Hnone j y); [lia|done].
Qed.

End RemoveIP_f.

Lemma SVCmd_RemoveIP_f_exact_match_witness :
  store_ok three_bans /\
  live (removeip 1000 "203.0.113.2" three_bans) =
    [ {| addr := Net.net_parseIPAddressMask "203.0.113.1";
         expire := 4294967295 |};
      {| addr := Net.net_parseIPAddressMask "198.51.100.0/24";
         expire := 4294967295 |} ] /\
  exists x,
    live three_bans ≡ₚ x :: live (removeip 1000 "203.0.113.2" three_bans).
Proof.
  assert ("203.0.113.2" <> EmptyString) as Hip by done.
  assert (store_ok three_bans) as Hok by (vm_compute; lia).
  split; [exact Hok|]. split; [reflexivity|].
  destruct (SVCmd_RemoveIP_f_exact_match Net.net_parseIPAddressMask Net.IPMASK
              unit 1000 None "203.0.113.2" three_bans Hip Hok)
    as [(k & x & _ & _ & _ & _ & _ & _ & _ & Hperm)|(Hnone & _)].
  - exists x. exact Hperm.
  - exfalso.
    apply (Hnone {| addr := Net.net_parseIPAddressMask "203.0.113.2";
                    expire := 1060 |}); [|reflexivity].
    apply (bool_decide_unpack _). vm_compute. exact I.
Defined.

(** A mask that merely contains the address is not a match for removal. *)
Example removeip_needs_equal_mask :
  Net.net_contains (Net.net_parseIPAddressMask "198.51.100.0/24")
                   (Net.net_parseIPAddressMask "198.51.100.5") = true /\
  numipfilters (removeip 1000 "198.51.100.5" three_bans) = 3%nat /\
  console (removeip 1000 "198.51.100.5" three_bans) =
    ["Didn't find 198.51.100.5." +:+ nl].
Proof. by vm_compute. Qed.

(** ** Writing the list to disk *)

(** A message on the console does not change what the sweep does. *)
Lemma TDM_CheckBans_loop_cprintf (now : Z) (i : nat) (m : string) (w : world) :
  TDM_CheckBans_loop now i (cprintf m w) =
  cprintf m (TDM_CheckBans_loop now i w).
Proof.
  funelim (TDM_CheckBans_loop now i w);
    rewrite TDM_CheckBans_loop_equation_1; simpl.
  - by rewrite Heq.
  - rewrite Heq0. simpl. rewrite Heq. simpl. apply H.
  - rewrite Heq0. simpl. rewrite Heq. simpl. apply H.
Qed.

Section WriteIP_f.

Variable IPMASK : netadr_t -> string.
Variable GAMEVERSION : string.
Variable MAX_OSPATH : nat.

Local Abbreviation WriteIP_f :=
  (SVCmd_WriteIP_f IPMASK GAMEVERSION MAX_OSPATH).

(** The loop writes a line for each entry whose [expire] is zero, in the
    order of the array. *)
Lemma SVCmd_WriteIP_f_loop_spec (i : nat) (w : world) (f : list string) :
  store_ok w -> (i <= numipfilters w)%nat ->
  SVCmd_WriteIP_f_loop IPMASK i w f =
  f ++ (addip_line IPMASK
          <$> filter (fun e => expire e = 0) (drop i (live w))).
Proof.
  funelim (SVCmd_WriteIP_f_loop IPMASK i w f).
  all: intros Hok Hi.
  - rewrite drop_ge by (rewrite live_length; [lia|done]).
    by rewrite app_nil_r.
  - assert (live w !! i = Some (ipfilters w !!! i)) as Hx.
    { rewrite <- live_lookup_total by done.
      apply list_lookup_lookup_total_lt. rewrite live_length by done. lia. }
    rewrite H by (done || lia). rewrite (drop_S _ _ _ Hx).
    rewrite filter_cons_False; [done|].
    apply negb_true_iff, Z.eqb_neq in Heq. done.
  - assert (live w !! i = Some (ipfilters w !!! i)) as Hx.
    { rewrite <- live_lookup_total by done.
      apply list_lookup_lookup_total_lt. rewrite live_length by done. lia. }
    rewrite H by (done || lia). rewrite (drop_S _ _ _ Hx).
    rewrite filter_cons_True by (by apply negb_false_iff, Z.eqb_eq in Heq).
    by rewrite fmap_cons, <- app_assoc.
Qed.

(** C1 -- what [SVCmd_WriteIP_f] writes: the line of the flag and one
    [sv addip] line for each entry left by the sweep whose [expire] is
    zero.  An entry with the sentinel of a permanent entry, the one
    [StringToFilter] stores for a duration of zero, is not among them: the
    file never names it. *)
Theorem SVCmd_WriteIP_f_skips_permanent (t : Z) (filterban game : cvar_t)
    (w : world) :
  store_ok w ->
  let w1 := TDM_CheckBans t w in
  let saved := filter (fun f => expire f = 0) (live w1) in
  files (WriteIP_f t filterban game true w) !! 0%nat =
    Some (listip_cfg GAMEVERSION MAX_OSPATH game,
          filterban_line filterban :: (addip_line IPMASK <$> saved)) /\
  (forall f : ipfilter_t, permanent f -> f ∉ saved).
Proof.
  intros Hok w1 saved. split.
  - assert (store_ok w1) as Hok1 by (by apply TDM_CheckBans_store_ok).
    unfold SVCmd_WriteIP_f. simpl.
    unfold TDM_CheckBans. rewrite TDM_CheckBans_loop_cprintf.
    fold (TDM_CheckBans t w). fold w1.
    rewrite SVCmd_WriteIP_f_loop_spec; [by rewrite drop_0|done|simpl; lia].
  - intros f Hperm Hin. apply list_elem_of_filter in Hin as [Hz _].
    unfold permanent in Hperm. rewrite Hz in Hperm. done.
Qed.

End WriteIP_f.

Lemma SVCmd_WriteIP_f_skips_permanent_witness :
  let w := addip 4 1000 "192.0.2.5" 0 (boot 4) in
  let f := {| addr := Net.net_parseIPAddressMask "192.0.2.5";
              expire := 4294967295 |} in
  live w = [f] /\ permanent f /\
  files (writeip 2000 filterban_on w) !! 0%nat =
    Some ("opentdm/listip.cfg", ["set filterban 1" +:+ nl]).
Proof.
  cbv zeta.
  assert (store_ok (addip 4 1000 "192.0.2.5" 0 (boot 4))) as Hok
    by (vm_compute; lia).
  split; [reflexivity|]. split; [reflexivity|].
  exact (proj1 (SVCmd_WriteIP_f_skips_permanent Net.IPMASK "opentdm" 64 2000
                  filterban_on {| cv_string := EmptyString; value := 0 # 1 |}
                  (addip 4 1000 "192.0.2.5" 0 (boot 4)) Hok)).
Defined.


(** * Further properties *)

(** ** The sweep, once more *)

Lemma wf_store_store_ok (cap : nat) (w : world) : wf_store cap w -> store_ok w.
Proof. unfold wf_store, store_ok. lia. Qed.

Lemma boot_wf_store (cap : nat) : wf_store cap (boot cap).
Proof.
  unfold wf_store. simpl. rewrite length_replicate.
  repeat split; [lia|]. intros j Hj. apply lookup_replicate_2. lia.
Qed.

Lemma RemoveIP_wf_store (cap i : nat) (w : world) :
  wf_store cap w -> (i < numipfilters w)%nat -> wf_store cap (RemoveIP i w).
Proof.
  intros (Hlen & Hnum & Hzero) Hi. unfold wf_store.
  rewrite RemoveIP_length, RemoveIP_numipfilters.
  repeat split; [done|lia|]. intros j Hj. simpl.
  destruct (decide (j = numipfilters w - 1)%nat) as [->|Hne].
  - apply list_lookup_insert_eq. rewrite length_insert. lia.
  - rewrite !list_lookup_insert_ne by lia. apply Hzero. lia.
Qed.

Lemma TDM_CheckBans_loop_wf_store (cap : nat) (now : Z) (i : nat) (w : world) :
  wf_store cap w -> wf_store cap (TDM_CheckBans_loop now i w).
Proof.
  funelim (TDM_CheckBans_loop now i w); intros Hwf.
  - done.
  - apply H. by apply RemoveIP_wf_store.
  - by apply H.
Qed.

(** X1 -- the sweep keeps the shape of the globals: the array keeps its
    length, the counter stays within it, and every slot a removal vacates is
    zeroed, so that all slots past the counter hold the all-zero entry; the
    counter is the number of entries that fail the test of the sweep, and the
    sweep prints nothing and writes no file. *)
Theorem TDM_CheckBans_keeps_shape (cap : nat) (t : Z) (w : world) :
  wf_store cap w ->
  wf_store cap (TDM_CheckBans t w) /\
  numipfilters (TDM_CheckBans t w) =
    length (filter (kept (to_unsigned t)) (live w)) /\
  (numipfilters (TDM_CheckBans t w) <= numipfilters w)%nat /\
  console (TDM_CheckBans t w) = console w /\
  files (TDM_CheckBans t w) = files w.
Proof.
  intros Hwf. pose proof (wf_store_store_ok cap w Hwf) as Hok.
  split; [by apply TDM_CheckBans_loop_wf_store|]. split.
  - rewrite <- (live_length (TDM_CheckBans t w))
      by (by apply TDM_CheckBans_store_ok).
    by rewrite TDM_CheckBans_live.
  - split; [apply TDM_CheckBans_loop_numipfilters|].
    apply TDM_CheckBans_loop_console.
Qed.

Lemma TDM_CheckBans_keeps_shape_witness :
  wf_store 4 three_bans /\
  wf_store 4 (TDM_CheckBans 1061 three_bans) /\
  numipfilters (TDM_CheckBans 1061 three_bans) = 2%nat.
Proof.
  assert (wf_store 4 three_bans) as Hwf.
  { repeat split; [vm_compute; lia|]. intros j Hj.
    assert (j = 3%nat) as -> by (vm_compute in Hj; lia). reflexivity. }
  split; [exact Hwf|].
  split; [exact (proj1 (TDM_CheckBans_keeps_shape 4 1061 three_bans Hwf))|].
  exact (proj1 (proj2 (TDM_CheckBans_keeps_shape 4 1061 three_bans Hwf))).
Defined.

(** A sweep over entries that all fail its test leaves the globals as they
    are. *)
Lemma TDM_CheckBans_loop_kept_id (now : Z) (i : nat) (w : world) :
  store_ok w -> (i <= numipfilters w)%nat ->
  Forall (kept now) (drop i (live w)) ->
  TDM_CheckBans_loop now i w = w.
Proof.
  funelim (TDM_CheckBans_loop now i w); [done| |].
  all: intros Hok Hi Hall.
  all: assert (live w !! i = Some (ipfilters w !!! i)) as Hx
    by (rewrite <- live_lookup_total by done;
        apply list_lookup_lookup_total_lt; rewrite live_length by done; lia).
  all: rewrite (drop_S _ _ _ Hx) in Hall;
    apply Forall_cons in Hall as [Hk Hall].
  - unfold kept in Hk. congruence.
  - apply H; [done|lia|done].
Qed.

Lemma TDM_CheckBans_all_kept (t : Z) (w : world) :
  store_ok w -> Forall (kept (to_unsigned t)) (live (TDM_CheckBans t w)).
Proof.
  intros Hok. apply Forall_forall. intros f Hf.
  by apply TDM_CheckBans_elem_of in Hf as [? _].
Qed.

(** X2 -- the sweep is idempotent: at the same clock a second sweep changes
    nothing at all, neither the array nor the counter. *)
Theorem TDM_CheckBans_idempotent (t : Z) (w : world) :
  store_ok w ->
  TDM_CheckBans t (TDM_CheckBans t w) = TDM_CheckBans t w.
Proof.
  intros Hok. unfold TDM_CheckBans at 1.
  apply TDM_CheckBans_loop_kept_id;
    [by apply TDM_CheckBans_store_ok|lia|].
  rewrite drop_0. by apply TDM_CheckBans_all_kept.
Qed.

Lemma TDM_CheckBans_idempotent_witness :
  TDM_CheckBans 1061 (TDM_CheckBans 1061 three_bans)
  = TDM_CheckBans 1061 three_bans.
Proof.
  assert (store_ok three_bans) as Hok by (vm_compute; lia).
  exact (TDM_CheckBans_idempotent 1061 three_bans Hok).
Defined.

Lemma kept_mono (now1 now2 : Z) (f : ipfilter_t) :
  now1 <= now2 -> kept now2 f -> kept now1 f.
Proof. rewrite !kept_iff. lia. Qed.

(** X3 -- sweeps compose along the clock: a sweep at an earlier clock
    followed by one at a later clock leaves, up to order, the entries the
    later sweep alone leaves. *)
Theorem TDM_CheckBans_later_absorbs (t1 t2 : Z) (w : world) :
  store_ok w -> to_unsigned t1 <= to_unsigned t2 ->
  live (TDM_CheckBans t2 (TDM_CheckBans t1 w)) ≡ₚ live (TDM_CheckBans t2 w).
Proof.
  intros Hok Hle.
  rewrite (TDM_CheckBans_live t2) by (by apply TDM_CheckBans_store_ok).
  rewrite !TDM_CheckBans_live by done.
  rewrite list_filter_filter.
  erewrite list_filter_iff; [done|].
  intros f. split; [by intros [? _]|]. intros Hk. split; [done|].
  by apply (kept_mono _ (to_unsigned t2)).
Qed.

Lemma TDM_CheckBans_later_absorbs_witness :
  live (TDM_CheckBans 1061 (TDM_CheckBans 1000 three_bans))
  ≡ₚ live (TDM_CheckBans 1061 three_bans).
Proof.
  assert (store_ok three_bans) as Hok by (vm_compute; lia).
  assert (to_unsigned 1000 <= to_unsigned 1061) as Hle
    by (vm_compute; discriminate).
  exact (TDM_CheckBans_later_absorbs 1000 1061 three_bans Hok Hle).
Defined.

(** ** Adding an entry, once more *)

Lemma to_int_small (z : Z) : - 2 ^ 31 <= z < 2 ^ 31 -> to_int z = z.
Proof. intros Hz. unfold to_int. rewrite Z.mod_small by lia. lia. Qed.

Lemma to_unsigned_small (z : Z) : 0 <= z < 2 ^ 32 -> to_unsigned z = z.
Proof. intros Hz. unfold to_unsigned. by apply Z.mod_small. Qed.

Section AddIP_more.

Variable MAX_IPFILTERS : nat.
Variable net_parseIPAddressMask : string -> netadr_t.
Variable net_contains : netadr_t -> netadr_t -> bool.
Variable edict_t : Type.

Local Abbreviation AddIP :=
  (SVCmd_AddIP_f MAX_IPFILTERS net_parseIPAddressMask edict_t).

(** X4 -- a duration of [expiry] minutes that is not zero gives the entry
    the expiry [t_parse + 60 * expiry], and the entry is in the list after a
    later sweep exactly when the clock of that sweep is not past this
    expiry: the ban holds through its last second.  A negative duration
    gives an expiry in the past, and the entry is gone at the next sweep. *)
Theorem SVCmd_AddIP_f_timed (t_sweep t_parse : Z) (ent : option edict_t)
    (ip : string) (expiry : Z) (w : world) :
  ip <> EmptyString -> store_ok w ->
  length (ipfilters w) = MAX_IPFILTERS ->
  numipfilters (TDM_CheckBans t_sweep w) <> MAX_IPFILTERS ->
  expiry <> 0 -> - 2 ^ 31 <= expiry * 60 < 2 ^ 31 ->
  0 < t_parse + expiry * 60 < 2 ^ 32 ->
  let f := {| addr := net_parseIPAddressMask ip;
              expire := t_parse + expiry * 60 |} in
  live (AddIP t_sweep t_parse ent ip expiry w) =
    live (TDM_CheckBans t_sweep w) ++ [f] /\
  (forall t : Z,
     f ∈ live (TDM_CheckBans t (AddIP t_sweep t_parse ent ip expiry w)) <->
     to_unsigned t <= t_parse + expiry * 60).
Proof.
  intros Hip Hok Hlen Hfull Hnz Hint Hexp f.
  destruct (SVCmd_AddIP_f_live MAX_IPFILTERS net_parseIPAddressMask edict_t
              t_sweep t_parse ent ip expiry w Hip Hok Hlen Hfull)
    as [Hok' Hlive].
  assert ((StringToFilter net_parseIPAddressMask t_parse ip
             (to_int (expiry * 60))).2 = f) as Hf.
  { unfold StringToFilter. simpl. rewrite to_int_small by done.
    destruct (Z.eqb_spec (expiry * 60) 0) as [Hz|_]; [lia|].
    by rewrite to_unsigned_small by lia. }
  rewrite Hf in Hlive. split; [done|].
  intros t. rewrite TDM_CheckBans_elem_of by done. rewrite Hlive.
  rewrite kept_iff. simpl. split.
  - intros [Hk _]. lia.
  - intros Hle. split; [lia|].
    apply elem_of_app. right. by apply list_elem_of_singleton.
Qed.

(** X5 -- adding and then checking: once an entry without expiry has been
    added for a text, [SV_FilterPacket] answers with the flag, at every
    later clock, for every address the parsed mask of that text contains. *)
Theorem SVCmd_AddIP_f_then_SV_FilterPacket (t_sweep t_parse t : Z)
    (ent : option edict_t) (ip : string) (filterban : cvar_t) (a : netadr_t)
    (w : world) :
  ip <> EmptyString -> store_ok w ->
  length (ipfilters w) = MAX_IPFILTERS ->
  numipfilters (TDM_CheckBans t_sweep w) <> MAX_IPFILTERS ->
  net_contains (net_parseIPAddressMask ip) a = true ->
  (SV_FilterPacket net_contains t filterban a
     (AddIP t_sweep t_parse ent ip 0 w)).1 = int_of_float (value filterban).
Proof.
  intros Hip Hok Hlen Hfull Hin.
  destruct (SVCmd_AddIP_f_live MAX_IPFILTERS net_parseIPAddressMask edict_t
              t_sweep t_parse ent ip 0 w Hip Hok Hlen Hfull)
    as [Hok' Hlive].
  rewrite SV_FilterPacket_result by done.
  rewrite bool_decide_eq_true_2; [done|].
  apply Exists_exists.
  exists {| addr := net_parseIPAddressMask ip; expire := to_unsigned (-1) |}.
  split; [|done].
  apply TDM_CheckBans_elem_of; [done|]. split.
  - by apply permanent_kept.
  - rewrite Hlive. apply elem_of_app. right. by apply list_elem_of_singleton.
Qed.

(** X6 -- the sweep runs before the test for a full list: when every slot
    is taken but some entry has expired, [SVCmd_AddIP_f] finds room, stores
    the new entry and does not print that the list is full. *)
Theorem SVCmd_AddIP_f_full_with_expired (t_sweep t_parse : Z)
    (ent : option edict_t) (ip : string) (expiry : Z) (w : world)
    (old : ipfilter_t) :
  ip <> EmptyString -> store_ok w ->
  length (ipfilters w) = MAX_IPFILTERS ->
  numipfilters w = MAX_IPFILTERS ->
  old ∈ live w -> expired (to_unsigned t_sweep) old = true ->
  (numipfilters (AddIP t_sweep t_parse ent ip expiry w)
   <= MAX_IPFILTERS)%nat /\
  console (AddIP t_sweep t_parse ent ip expiry w) = console w /\
  exists f : ipfilter_t,
    addr f = net_parseIPAddressMask ip /\
    live (AddIP t_sweep t_parse ent ip expiry w) =
      live (TDM_CheckBans t_sweep w) ++ [f].
Proof.
  intros Hip Hok Hlen Hnum Hold Hexp.
  assert (numipfilters (TDM_CheckBans t_sweep w) < MAX_IPFILTERS)%nat as Hlt.
  { rewrite <- (live_length (TDM_CheckBans t_sweep w))
      by (by apply TDM_CheckBans_store_ok).
    rewrite TDM_CheckBans_live by done.
    rewrite <- Hnum, <- (live_length w) by done.
    apply (length_filter_lt _ _ old); [done|].
    unfold kept. congruence. }
  assert (numipfilters (TDM_CheckBans t_sweep w) <> MAX_IPFILTERS) as Hfull
    by lia.
  destruct (SVCmd_AddIP_f_live MAX_IPFILTERS net_parseIPAddressMask edict_t
              t_sweep t_parse ent ip expiry w Hip Hok Hlen Hfull)
    as [Hok' Hlive].
  rewrite SVCmd_AddIP_f_inserts by done. cbv zeta. simpl.
  split; [lia|]. split; [apply TDM_CheckBans_loop_console|].
  eexists. split;
    [|rewrite SVCmd_AddIP_f_inserts in Hlive by done; exact Hlive].
  done.
Qed.

End AddIP_more.

Lemma SVCmd_AddIP_f_timed_witness :
  let f := {| addr := Net.net_parseIPAddressMask "203.0.113.2";
              expire := 1000 + 1 * 60 |} in
  (f ∈ live (TDM_CheckBans 1060 (addip 4 1000 "203.0.113.2" 1 (boot 4))) <->
   to_unsigned 1060 <= 1000 + 1 * 60) /\
  (f ∈ live (TDM_CheckBans 1061 (addip 4 1000 "203.0.113.2" 1 (boot 4))) <->
   to_unsigned 1061 <= 1000 + 1 * 60).
Proof.
  assert ("203.0.113.2" <> EmptyString) as Hip by done.
  assert (store_ok (boot 4)) as Hok by (vm_compute; lia).
  assert (length (ipfilters (boot 4)) = 4%nat) as Hlen by reflexivity.
  assert (numipfilters (TDM_CheckBans 1000 (boot 4)) <> 4%nat) as Hfull
    by (vm_compute; lia).
  assert (1 <> 0) as Hnz by lia.
  assert (- 2 ^ 31 <= 1 * 60 < 2 ^ 31) as Hint by lia.
  assert (0 < 1000 + 1 * 60 < 2 ^ 32) as Hexp by lia.
  pose proof (SVCmd_AddIP_f_timed 4 Net.net_parseIPAddressMask unit 1000 1000
                None "203.0.113.2" 1 (boot 4) Hip Hok Hlen Hfull Hnz Hint Hexp)
    as [_ H].
  split; [exact (H 1060)|exact (H 1061)].
Defined.

Lemma SVCmd_AddIP_f_then_SV_FilterPacket_witness :
  (SV_FilterPacket Net.net_contains 5000 filterban_on
     (Net.net_parseIPAddressMask "198.51.100.5")
     (addip 4 1000 "198.51.100.0/24" 0 (boot 4))).1 = 1.
Proof.
  assert ("198.51.100.0/24" <> EmptyString) as Hip by done.
  assert (store_ok (boot 4)) as Hok by (vm_compute; lia).
  assert (length (ipfilters (boot 4)) = 4%nat) as Hlen by reflexivity.
  assert (numipfilters (TDM_CheckBans 1000 (boot 4)) <> 4%nat) as Hfull
    by (vm_compute; lia).
  assert (Net.net_contains (Net.net_parseIPAddressMask "198.51.100.0/24")
            (Net.net_parseIPAddressMask "198.51.100.5") = true) as Hin
    by reflexivity.
  exact (SVCmd_AddIP_f_then_SV_FilterPacket 4 Net.net_parseIPAddressMask
           Net.net_contains unit 1000 1000 5000 None "198.51.100.0/24"
           filterban_on (Net.net_parseIPAddressMask "198.51.100.5") (boot 4)
           Hip Hok Hlen Hfull Hin).
Defined.

Lemma SVCmd_AddIP_f_full_with_expired_witness :
  numipfilters full_timed = 2%nat /\
  (numipfilters (addip 2 1061 "198.51.100.7" 0 full_timed) <= 2)%nat /\
  console (addip 2 1061 "198.51.100.7" 0 full_timed) = console full_timed.
Proof.
  assert ("198.51.100.7" <> EmptyString) as Hip by done.
  assert (store_ok full_timed) as Hok by (vm_compute; lia).
  assert (length (ipfilters full_timed) = 2%nat) as Hlen by reflexivity.
  assert (numipfilters full_timed = 2%nat) as Hnum by reflexivity.
  assert ({| addr := Net.net_parseIPAddressMask "203.0.113.2";
             expire := 1060 |} ∈ live full_timed) as Hold.
  { apply (bool_decide_unpack _). vm_compute. exact I. }
  assert (expired (to_unsigned 1061)
            {| addr := Net.net_parseIPAddressMask "203.0.113.2";
               expire := 1060 |} = true) as Hexp by reflexivity.
  split; [exact Hnum|].
  pose proof (SVCmd_AddIP_f_full_with_expired 2 Net.net_parseIPAddressMask
                unit 1061 1061 None "198.51.100.7" 0 full_timed _
                Hip Hok Hlen Hnum Hold Hexp) as (H1 & H2 & _).
  split; [exact H1|exact H2].
Defined.

(** ** The commands keep the shape of the globals *)

Lemma cprintf_wf_store (cap : nat) (m : string) (w : world) :
  wf_store cap w -> wf_store cap (cprintf m w).
Proof. done. Qed.

Lemma cprintf_live (m : string) (w : world) : live (cprintf m w) = live w.
Proof. done. Qed.

Section Console.

Variable MAX_IPFILTERS : nat.
Variable net_parseIPAddressMask : string -> netadr_t.
Variable net_contains : netadr_t -> netadr_t -> bool.
Variable IPMASK : netadr_t -> string.
Variable GAMEVERSION : string.
Variable MAX_OSPATH : nat.
Variable edict_t : Type.
Variable gitem_t : Type.
Variable classname : gitem_t -> string.
Variable Q_stricmp : string -> string -> Z.
Variable atoi : string -> Z.
Variable TDM_ServerCommand : string -> world -> bool * world.

Local Abbreviation AddIP :=
  (SVCmd_AddIP_f MAX_IPFILTERS net_parseIPAddressMask edict_t).
Local Abbreviation RemoveIP_f :=
  (SVCmd_RemoveIP_f net_parseIPAddressMask IPMASK edict_t).
Local Abbreviation ListIP_f := (SVCmd_ListIP_f IPMASK edict_t).
Local Abbreviation WriteIP_f :=
  (SVCmd_WriteIP_f IPMASK GAMEVERSION MAX_OSPATH).
Local Abbreviation Itemlist_f := (Svcmd_Itemlist_f gitem_t classname).

Lemma SVCmd_AddIP_f_wf_store (t_sweep t_parse : Z) (ent : option edict_t)
    (ip : string) (expiry : Z) (w : world) :
  wf_store MAX_IPFILTERS w ->
  wf_store MAX_IPFILTERS (AddIP t_sweep t_parse ent ip expiry w).
Proof.
  intros Hwf. unfold SVCmd_AddIP_f.
  destruct (decide (ip = EmptyString)) as [_|_]; [done|]. simpl.
  pose proof (TDM_CheckBans_loop_wf_store MAX_IPFILTERS (to_unsigned t_sweep)
                0 w Hwf) as Hwf1.
  fold (TDM_CheckBans t_sweep w) in Hwf1.
  destruct (decide (numipfilters (TDM_CheckBans t_sweep w) = MAX_IPFILTERS))
    as [_|Hfree]; [done|].
  destruct Hwf1 as (Hlen & Hnum & Hzero).
  unfold wf_store. simpl. rewrite length_insert.
  repeat split; [done|lia|]. intros j Hj.
  rewrite list_lookup_insert_ne by lia. apply Hzero. lia.
Qed.

Lemma SVCmd_RemoveIP_f_unfold (t : Z) (ent : option edict_t) (ip : string)
    (w : world) :
  ip <> EmptyString ->
  RemoveIP_f t ent ip w =
  SVCmd_RemoveIP_f_loop IPMASK ip
    {| addr := net_parseIPAddressMask ip; expire := to_unsigned (-1) |} 0
    (TDM_CheckBans t w).
Proof. intros Hip. unfold SVCmd_RemoveIP_f. by rewrite decide_False. Qed.

Lemma SVCmd_RemoveIP_f_wf_store (t : Z) (ent : option edict_t) (ip : string)
    (w : world) :
  wf_store MAX_IPFILTERS w ->
  wf_store MAX_IPFILTERS (RemoveIP_f t ent ip w).
Proof.
  intros Hwf. destruct (decide (ip = EmptyString)) as [->|Hip]; [done|].
  rewrite SVCmd_RemoveIP_f_unfold by done.
  pose proof (TDM_CheckBans_loop_wf_store MAX_IPFILTERS (to_unsigned t)
                0 w Hwf) as Hwf1.
  fold (TDM_CheckBans t w) in Hwf1.
  pose proof (wf_store_store_ok _ _ Hwf1) as Hok1.
  destruct (SVCmd_RemoveIP_f_loop_spec IPMASK ip
              {| addr := net_parseIPAddressMask ip;
                 expire := to_unsigned (-1) |} 0 (TDM_CheckBans t w) Hok1)
    as [(k & x & _ & Hx & _ & _ & ->)|[_ ->]]; [lia| |done].
  apply cprintf_wf_store, RemoveIP_wf_store; [done|].
  apply lookup_lt_Some in Hx. by rewrite live_length in Hx.
Qed.

(** The loop of the listing prints one line for each entry from index [i]
    on, in the order of the array, and changes nothing else. *)
Lemma SVCmd_ListIP_f_loop_spec (now : Z) (i : nat) (w : world) :
  store_ok w -> (i <= numipfilters w)%nat ->
  SVCmd_ListIP_f_loop IPMASK now i w =
  {| ipfilters := ipfilters w; numipfilters := numipfilters w;
     console := console w ++ (ListIP_line IPMASK now <$> drop i (live w));
     files := files w |}.
Proof.
  funelim (SVCmd_ListIP_f_loop IPMASK now i w).
  all: intros Hok Hi.
  - assert (live w !! i = Some (ipfilters w !!! i)) as Hx.
    { rewrite <- live_lookup_total by done.
      apply list_lookup_lookup_total_lt. rewrite live_length by done. lia. }
    rewrite H by (done || (simpl; lia)).
    rewrite cprintf_live, (drop_S _ _ _ Hx). simpl.
    by rewrite <- app_assoc.
  - rewrite drop_ge by (rewrite live_length; [lia|done]).
    simpl. rewrite app_nil_r. by destruct w.
Qed.

Lemma Svcmd_Itemlist_f_loop_spec (num_items : Z) (itemlist : list gitem_t)
    (j : nat) (w : world) :
  (Z.of_nat j <= num_items)%Z -> num_items <= Z.of_nat (length itemlist) ->
  Svcmd_Itemlist_f_loop gitem_t classname num_items itemlist j w =
  {| ipfilters := ipfilters w; numipfilters := numipfilters w;
     console :=
       console w
       ++ ((fun i => "ITEM_" +:+ classname i +:+ "," +:+ nl)
             <$> drop j (take (Z.to_nat num_items) itemlist));
     files := files w |}.
Proof.
  funelim (Svcmd_Itemlist_f_loop gitem_t classname num_items itemlist j w).
  all: intros Hj Hlen.
  - destruct (lookup_lt_is_Some_2 itemlist j) as [x Hx]; [lia|].
    rewrite H by lia. simpl. rewrite Hx. simpl.
    assert (take (Z.to_nat num_items) itemlist !! j = Some x) as Hx'
      by (rewrite lookup_take_lt by lia; done).
    rewrite (drop_S _ _ _ Hx'). simpl. by rewrite <- app_assoc.
  - rewrite drop_ge by (rewrite length_take; lia).
    simpl. rewrite app_nil_r. by destruct w.
Qed.

(** X7 -- no command of the server console breaks the shape of the
    globals: whatever the arguments, the clocks and the state of the disk,
    after [ServerCommand] the array still has [MAX_IPFILTERS] slots, the
    counter is within them and every slot past the counter is zero, provided
    the command handler of the match code keeps that shape too. *)
Theorem ServerCommand_keeps_shape (argv : nat -> string) (t1 t2 : Z)
    (filterban game : cvar_t) (fopen_ok : bool) (num_items : Z)
    (itemlist : list gitem_t) (w : world) :
  (forall (cmd : string) (v : world),
     wf_store MAX_IPFILTERS v ->
     wf_store MAX_IPFILTERS (TDM_ServerCommand cmd v).2) ->
  num_items <= Z.of_nat (length itemlist) ->
  wf_store MAX_IPFILTERS w ->
  wf_store MAX_IPFILTERS
    (ServerCommand MAX_IPFILTERS net_parseIPAddressMask IPMASK GAMEVERSION
       MAX_OSPATH edict_t gitem_t classname Q_stricmp atoi TDM_ServerCommand
       argv t1 t2 filterban game fopen_ok num_items itemlist w).
Proof.
  intros Htdm Hitems Hwf. unfold ServerCommand.
  pose proof (wf_store_store_ok _ _ Hwf) as Hok.
  repeat case_match.
  - unfold Svcmd_Itemlist_f.
    destruct (Z_lt_dec 1 num_items) as [Hlt|Hge].
    + rewrite Svcmd_Itemlist_f_loop_spec by lia. done.
    + by rewrite Svcmd_Itemlist_f_loop_equation_1;
        destruct (Z_lt_dec (Z.of_nat 1) num_items); [lia|].
  - by apply SVCmd_AddIP_f_wf_store.
  - by apply SVCmd_RemoveIP_f_wf_store.
  - unfold SVCmd_ListIP_f.
    pose proof (TDM_CheckBans_loop_wf_store MAX_IPFILTERS (to_unsigned t1)
                  0 w Hwf) as Hwf1.
    fold (TDM_CheckBans t1 w) in Hwf1.
    rewrite SVCmd_ListIP_f_loop_spec;
      [done|by apply (wf_store_store_ok MAX_IPFILTERS)|simpl; lia].
  - unfold SVCmd_WriteIP_f. destruct fopen_ok; simpl; [|done].
    apply (TDM_CheckBans_loop_wf_store MAX_IPFILTERS (to_unsigned t1) 0
             (cprintf _ w)). done.
  - subst. specialize (Htdm (argv 1%nat) w Hwf).
    match goal with Heq : TDM_ServerCommand _ _ = _ |- _ =>
      rewrite Heq in Htdm end. done.
  - subst. specialize (Htdm (argv 1%nat) w Hwf).
    match goal with Heq : TDM_ServerCommand _ _ = _ |- _ =>
      rewrite Heq in Htdm end. done.
Qed.

End Console.

(** ** Listing *)

Section Listing.

Variable IPMASK : netadr_t -> string.
Variable edict_t : Type.
Variable gitem_t : Type.
Variable classname : gitem_t -> string.

Local Abbreviation ListIP_f := (SVCmd_ListIP_f IPMASK edict_t).

Lemma SVCmd_ListIP_f_spec (t_sweep t : Z) (ent : option edict_t) (w : world) :
  store_ok w ->
  ListIP_f t_sweep t ent w =
  {| ipfilters := ipfilters (TDM_CheckBans t_sweep w);
     numipfilters := numipfilters (TDM_CheckBans t_sweep w);
     console :=
       console w
       ++ ["Filter list:" +:+ nl +:+ " Duration    IP" +:+ nl]
       ++ (ListIP_line IPMASK (to_unsigned t)
             <$> live (TDM_CheckBans t_sweep w));
     files := files w |}.
Proof.
  intros Hok. unfold SVCmd_ListIP_f.
  rewrite SVCmd_ListIP_f_loop_spec;
    [|by apply TDM_CheckBans_store_ok|simpl; lia].
  rewrite cprintf_live, drop_0. simpl.
  destruct (TDM_CheckBans_loop_console (to_unsigned t_sweep) 0 w)
    as [Hcon Hfiles].
  unfold TDM_CheckBans. rewrite Hcon, Hfiles. by rewrite <- app_assoc.
Qed.

(** X8 -- [SVCmd_ListIP_f] sweeps, prints the heading and then one line for
    each entry the sweep left, in the order of the array, and changes
    nothing else.  An entry with the sentinel of a permanent entry is
    labelled [permanent] whatever the clock; when both clock readings agree,
    an entry with another expiry that is not zero shows the whole minutes
    left until its expiry, which cannot be negative since the sweep came
    first. *)
Theorem SVCmd_ListIP_f_lines (t_sweep t : Z) (ent : option edict_t)
    (w : world) :
  store_ok w ->
  let w1 := TDM_CheckBans t_sweep w in
  let now := to_unsigned t in
  ipfilters (ListIP_f t_sweep t ent w) = ipfilters w1 /\
  numipfilters (ListIP_f t_sweep t ent w) = numipfilters w1 /\
  files (ListIP_f t_sweep t ent w) = files w /\
  console (ListIP_f t_sweep t ent w) =
    console w ++ ["Filter list:" +:+ nl +:+ " Duration    IP" +:+ nl]
    ++ (ListIP_line IPMASK now <$> live w1) /\
  (forall f : ipfilter_t,
     permanent f ->
     ListIP_line IPMASK now f = " permanent   " +:+ IPMASK (addr f) +:+ nl) /\
  (to_unsigned t = to_unsigned t_sweep ->
   forall f : ipfilter_t,
     f ∈ live w1 -> 0 < expire f < 2 ^ 32 - 1 ->
     0 <= (expire f - now) / 60 /\
     ListIP_line IPMASK now f =
       " " +:+ pad12 (pretty ((expire f - now) / 60) +:+ " min"
                      +:+ (if (expire f - now) / 60 =? 1
                           then EmptyString else "s"))
       +:+ IPMASK (addr f) +:+ nl).
Proof.
  intros Hok w1 now. rewrite SVCmd_ListIP_f_spec by done. simpl.
  do 4 (split; [done|]). split.
  - intros f Hperm. unfold ListIP_line. unfold permanent in Hperm.
    by rewrite Hperm, Z.eqb_refl.
  - intros Ht f Hf Hexp. subst w1 now.
    apply TDM_CheckBans_elem_of in Hf as [Hk _]; [|done].
    apply kept_iff in Hk. rewrite <- Ht in Hk.
    pose proof (to_unsigned_range t) as Hnow.
    assert (0 <= (expire f - to_unsigned t) / 60)
      by (apply Z.div_pos; lia).
    split; [done|].
    unfold ListIP_line.
    rewrite (to_unsigned_small (expire f - to_unsigned t)) by lia.
    destruct (Z.eqb_spec (expire f) (to_unsigned (-1))) as [He|_].
    { change (to_unsigned (-1)) with 4294967295 in He. lia. }
    rewrite to_int_small; [done|].
    assert ((expire f - to_unsigned t) / 60 < 2 ^ 31)
      by (apply Z.div_lt_upper_bound; lia).
    lia.
Qed.

(** X9 -- [Svcmd_Itemlist_f] prints one line for each of the items
    [1 .. num_items - 1] of the table, in their order, never the item at
    index zero, and nothing at all when [num_items] is at most one; the
    filter list and the files are left alone. *)
Theorem Svcmd_Itemlist_f_lines (num_items : Z) (itemlist : list gitem_t)
    (w : world) :
  num_items <= Z.of_nat (length itemlist) ->
  Svcmd_Itemlist_f gitem_t classname num_items itemlist w =
  {| ipfilters := ipfilters w; numipfilters := numipfilters w;
     console :=
       console w
       ++ ((fun i => "ITEM_" +:+ classname i +:+ "," +:+ nl)
             <$> drop 1 (take (Z.to_nat num_items) itemlist));
     files := files w |}.
Proof.
  intros Hlen. unfold Svcmd_Itemlist_f.
  destruct (Z_lt_dec 1 num_items) as [Hlt|Hge].
  - by rewrite Svcmd_Itemlist_f_loop_spec by lia.
  - rewrite Svcmd_Itemlist_f_loop_equation_1.
    destruct (Z_lt_dec (Z.of_nat 1) num_items) as [?|?]; [lia|]. simpl.
    rewrite drop_ge by (rewrite length_take; lia).
    simpl. rewrite app_nil_r. by destruct w.
Qed.

End Listing.

(** ** How the commands compose *)

(** X10 -- removing the last entry in use only cuts the list, so the other
    entries keep their places; removing another entry changes the place [i]
    alone, which takes the former last entry. *)
Theorem RemoveIP_places (i : nat) (w : world) :
  store_ok w -> (i < numipfilters w)%nat ->
  (i = (numipfilters w - 1)%nat ->
   live (RemoveIP i w) = take (numipfilters w - 1) (live w)) /\
  ((i < numipfilters w - 1)%nat ->
   live (RemoveIP i w) =
   <[ i := live w !!! (numipfilters w - 1)%nat ]>
     (take (numipfilters w - 1) (live w))).
Proof.
  intros Hok Hi. rewrite live_RemoveIP by done. split.
  - intros ->. by rewrite take_insert_ge.
  - intros Hlt. by rewrite take_insert_lt.
Qed.

Lemma RemoveIP_places_witness :
  live (RemoveIP 2 three_bans) = take 2 (live three_bans) /\
  live (RemoveIP 0 three_bans) =
    <[ 0%nat := live three_bans !!! 2%nat ]> (take 2 (live three_bans)).
Proof.
  assert (store_ok three_bans) as Hok by (vm_compute; lia).
  split.
  - assert (2 < numipfilters three_bans)%nat as Hi by (vm_compute; lia).
    exact (proj1 (RemoveIP_places 2 three_bans Hok Hi) eq_refl).
  - assert (0 < numipfilters three_bans)%nat as Hi by (vm_compute; lia).
    assert (0 < numipfilters three_bans - 1)%nat as Hlt by (vm_compute; lia).
    exact (proj2 (RemoveIP_places 0 three_bans Hok Hi) Hlt).
Defined.

Section Composition.

Variable MAX_IPFILTERS : nat.
Variable net_parseIPAddressMask : string -> netadr_t.
Variable net_contains : netadr_t -> netadr_t -> bool.
Variable IPMASK : netadr_t -> string.
Variable GAMEVERSION : string.
Variable MAX_OSPATH : nat.
Variable edict_t : Type.

Local Abbreviation AddIP :=
  (SVCmd_AddIP_f MAX_IPFILTERS net_parseIPAddressMask edict_t).
Local Abbreviation RemoveIP_f :=
  (SVCmd_RemoveIP_f net_parseIPAddressMask IPMASK edict_t).
Local Abbreviation ListIP_f := (SVCmd_ListIP_f IPMASK edict_t).
Local Abbreviation WriteIP_f :=
  (SVCmd_WriteIP_f IPMASK GAMEVERSION MAX_OSPATH).

(** X11 -- every command that reads the list sweeps it first: after the
    connect-time test, after a removal by a text that is not empty (found or
    not), after a listing and after a write that could open its file, no
    entry in use passes the test of the sweep at the clock of the command. *)
Theorem commands_leave_no_expired_entry (t t' : Z) (filterban game : cvar_t)
    (a : netadr_t) (ent : option edict_t) (ip : string) (w : world) :
  store_ok w ->
  Forall (kept (to_unsigned t))
         (live (SV_FilterPacket net_contains t filterban a w).2) /\
  (ip <> EmptyString ->
   Forall (kept (to_unsigned t)) (live (RemoveIP_f t ent ip w))) /\
  Forall (kept (to_unsigned t)) (live (ListIP_f t t' ent w)) /\
  Forall (kept (to_unsigned t)) (live (WriteIP_f t filterban game true w)).
Proof.
  intros Hok.
  pose proof (TDM_CheckBans_all_kept t w Hok) as Hall.
  pose proof (TDM_CheckBans_store_ok t w Hok) as Hok1.
  split; [done|]. split; [|split].
  - intros Hip. rewrite SVCmd_RemoveIP_f_unfold by done.
    destruct (SVCmd_RemoveIP_f_loop_spec IPMASK ip
                {| addr := net_parseIPAddressMask ip;
                   expire := to_unsigned (-1) |} 0 (TDM_CheckBans t w) Hok1)
      as [(k & x & _ & Hx & _ & _ & ->)|[_ ->]]; [lia| |done].
    rewrite cprintf_live.
    assert (k < numipfilters (TDM_CheckBans t w))%nat as Hk.
    { apply lookup_lt_Some in Hx. by rewrite live_length in Hx. }
    rewrite (live_RemoveIP_Permutation k) in Hall by done.
    by apply Forall_cons in Hall as [_ ?].
  - by rewrite SVCmd_ListIP_f_spec by done.
  - unfold SVCmd_WriteIP_f. simpl.
    unfold TDM_CheckBans. rewrite TDM_CheckBans_loop_cprintf.
    exact Hall.
Qed.

(** X12 -- adding and then removing: an entry without expiry that was just
    added for a text is always found again by [SVCmd_RemoveIP_f] with the
    same text, at any later clock; the command reports the removal and the
    list is one entry shorter than the second sweep left it. *)
Theorem SVCmd_RemoveIP_f_after_AddIP (t_sweep t_parse t : Z)
    (ent ent' : option edict_t) (ip : string) (w : world) :
  ip <> EmptyString -> store_ok w ->
  length (ipfilters w) = MAX_IPFILTERS ->
  numipfilters (TDM_CheckBans t_sweep w) <> MAX_IPFILTERS ->
  let w2 := AddIP t_sweep t_parse ent ip 0 w in
  let w3 := RemoveIP_f t ent' ip w2 in
  console w3 =
    console w ++ ["Removed " +:+ IPMASK (net_parseIPAddressMask ip) +:+ nl] /\
  S (numipfilters w3) = numipfilters (TDM_CheckBans t w2) /\
  exists x : ipfilter_t,
    addr x = net_parseIPAddressMask ip /\
    live (TDM_CheckBans t w2) ≡ₚ x :: live w3.
Proof.
  intros Hip Hok Hlen Hfull w2 w3.
  destruct (SVCmd_AddIP_f_live MAX_IPFILTERS net_parseIPAddressMask edict_t
              t_sweep t_parse ent ip 0 w Hip Hok Hlen Hfull)
    as [Hok2 Hlive2]. fold w2 in Hok2, Hlive2.
  pose proof (TDM_CheckBans_store_ok t w2 Hok2) as Hok3.
  assert ({| addr := net_parseIPAddressMask ip; expire := to_unsigned (-1) |}
          ∈ live (TDM_CheckBans t w2)) as Hin.
  { apply TDM_CheckBans_elem_of; [done|]. split; [by apply permanent_kept|].
    rewrite Hlive2. apply elem_of_app. right. by apply list_elem_of_singleton. }
  assert (console (TDM_CheckBans t w2) = console w) as Hcon.
  { unfold TDM_CheckBans.
    rewrite (proj1 (TDM_CheckBans_loop_console _ _ _)).
    unfold w2. rewrite SVCmd_AddIP_f_inserts by done. simpl.
    apply TDM_CheckBans_loop_console. }
  unfold w3. rewrite SVCmd_RemoveIP_f_unfold by done.
  destruct (SVCmd_RemoveIP_f_loop_spec IPMASK ip
              {| addr := net_parseIPAddressMask ip;
                 expire := to_unsigned (-1) |} 0 (TDM_CheckBans t w2) Hok3)
    as [(k & x & _ & Hx & Hax & _ & ->)|[Hnone _]]; [lia| |].
  - assert (k < numipfilters (TDM_CheckBans t w2))%nat as Hk.
    { apply lookup_lt_Some in Hx. by rewrite live_length in Hx. }
    simpl. rewrite Hcon. split; [done|]. split; [lia|].
    exists x. split; [done|]. rewrite cprintf_live.
    rewrite live_lookup in Hx by done.
    apply list_lookup_total_correct in Hx. subst x.
    by apply live_RemoveIP_Permutation.
  - exfalso. apply list_elem_of_lookup in Hin as [j Hj].
    apply (Hnone j _ ltac:(lia) Hj). done.
Qed.

(** X13 -- the list may hold the same mask twice, and a removal takes one
    entry only: after two additions without expiry for one text and one
    removal by that text, an entry for the text is still in the list, and
    [SV_FilterPacket] still answers with the flag for the addresses it
    contains. *)
Theorem SVCmd_RemoveIP_f_takes_one (t1 t2 t3 t4 t5 t6 : Z)
    (ent : option edict_t) (ip : string) (filterban : cvar_t) (a : netadr_t)
    (w : world) :
  ip <> EmptyString -> store_ok w ->
  length (ipfilters w) = MAX_IPFILTERS ->
  numipfilters (TDM_CheckBans t1 w) <> MAX_IPFILTERS ->
  numipfilters (TDM_CheckBans t3 (AddIP t1 t2 ent ip 0 w))
    <> MAX_IPFILTERS ->
  let f := {| addr := net_parseIPAddressMask ip;
              expire := to_unsigned (-1) |} in
  let w' := RemoveIP_f t5 ent ip
              (AddIP t3 t4 ent ip 0 (AddIP t1 t2 ent ip 0 w)) in
  f ∈ live w' /\
  (net_contains (net_parseIPAddressMask ip) a = true ->
   (SV_FilterPacket net_contains t6 filterban a w').1
   = int_of_float (value filterban)).
Proof.
  intros Hip Hok Hlen Hfull1 Hfull2 f w'. subst f w'.
  remember {| addr := net_parseIPAddressMask ip;
              expire := to_unsigned (-1) |} as f eqn:Ef.
  destruct (SVCmd_AddIP_f_live MAX_IPFILTERS net_parseIPAddressMask edict_t
              t1 t2 ent ip 0 w Hip Hok Hlen Hfull1) as [Hok2 Hlive2].
  set (w2 := AddIP t1 t2 ent ip 0 w) in *.
  assert (length (ipfilters w2) = MAX_IPFILTERS) as Hlen2.
  { unfold w2. rewrite SVCmd_AddIP_f_inserts by done. simpl.
    rewrite length_insert. rewrite <- Hlen.
    by apply TDM_CheckBans_length. }
  destruct (SVCmd_AddIP_f_live MAX_IPFILTERS net_parseIPAddressMask edict_t
              t3 t4 ent ip 0 w2 Hip Hok2 Hlen2 Hfull2) as [Hok3 Hlive3].
  set (w3 := AddIP t3 t4 ent ip 0 w2) in *.
  assert (forall tm, (StringToFilter net_parseIPAddressMask tm ip
                        (to_int (0 * 60))).2 = f) as Hstf
    by (by rewrite Ef).
  rewrite Hstf in Hlive2, Hlive3.
  assert (permanent f) as Hperm by (by rewrite Ef).
  assert (addr f = net_parseIPAddressMask ip) as Haddr by (by rewrite Ef).
  assert (f ∈ live (TDM_CheckBans t3 w2)) as Hin2.
  { apply TDM_CheckBans_elem_of; [done|]. split; [by apply permanent_kept|].
    rewrite Hlive2. apply elem_of_app. right. by apply list_elem_of_singleton. }
  pose proof (TDM_CheckBans_store_ok t5 w3 Hok3) as Hok4.
  assert (exists l, f ∈ l /\ live (TDM_CheckBans t5 w3) ≡ₚ f :: l)
    as (l & Hfl & Hl).
  { exists (filter (kept (to_unsigned t5)) (live (TDM_CheckBans t3 w2))).
    split.
    - apply list_elem_of_filter. split; [by apply permanent_kept|done].
    - rewrite TDM_CheckBans_live by done. rewrite Hlive3, filter_app.
      rewrite filter_cons_True by (by apply permanent_kept).
      rewrite filter_nil. by rewrite <- Permutation_cons_append. }
  assert (f ∈ live (RemoveIP_f t5 ent ip w3)) as Hin.
  { rewrite SVCmd_RemoveIP_f_unfold by done. rewrite <- Ef.
    destruct (SVCmd_RemoveIP_f_loop_spec IPMASK ip f 0
                (TDM_CheckBans t5 w3) Hok4)
      as [(k & x & _ & Hx & Hax & _ & ->)|[Hnone _]]; [lia| |].
    - assert (k < numipfilters (TDM_CheckBans t5 w3))%nat as Hk.
      { apply lookup_lt_Some in Hx. by rewrite live_length in Hx. }
      rewrite cprintf_live.
      pose proof (live_RemoveIP_Permutation k _ Hok4 Hk) as Hp.
      rewrite live_lookup in Hx by done.
      apply list_lookup_total_correct in Hx. rewrite Hx in Hp.
      destruct (decide (x = f)) as [->|Hne].
      + rewrite Hl in Hp. apply Permutation_cons_inv in Hp.
        by rewrite <- Hp.
      + assert (f ∈ x :: live (RemoveIP k (TDM_CheckBans t5 w3))) as Hf
          by (rewrite <- Hp, Hl; apply list_elem_of_here).
        apply elem_of_cons in Hf as [?|?]; [congruence|done].
    - exfalso.
      assert (f ∈ live (TDM_CheckBans t5 w3)) as Hf
        by (rewrite Hl; apply list_elem_of_here).
      apply list_elem_of_lookup in Hf as [j Hj].
      apply (Hnone j _ ltac:(lia) Hj). done. }
  split; [done|]. intros Hm.
  assert (store_ok (RemoveIP_f t5 ent ip w3)) as Hok'.
  { rewrite SVCmd_RemoveIP_f_unfold by done. rewrite <- Ef.
    destruct (SVCmd_RemoveIP_f_loop_spec IPMASK ip f 0
                (TDM_CheckBans t5 w3) Hok4)
      as [(k & x & _ & Hx & Hax & _ & ->)|[_ ->]]; [lia| |done].
    by apply (RemoveIP_store_ok k). }
  rewrite SV_FilterPacket_result by done.
  rewrite bool_decide_eq_true_2; [done|].
  apply Exists_exists. exists f. split; [|by rewrite Haddr].
  apply TDM_CheckBans_elem_of; [done|]. split; [by apply permanent_kept|done].
Qed.

(** X14 -- with no entry in use [SV_FilterPacket] answers with the negated
    flag and changes nothing: under [filterban 1] an empty list lets every
    client in, under [filterban 0] it keeps every client out. *)
Theorem SV_FilterPacket_empty_list (t : Z) (filterban : cvar_t)
    (a : netadr_t) (w : world) :
  numipfilters w = 0%nat ->
  SV_FilterPacket net_contains t filterban a w
  = (lnot_float (value filterban), w).
Proof.
  intros Hnum. unfold SV_FilterPacket.
  assert (TDM_CheckBans t w = w) as ->.
  { apply TDM_CheckBans_loop_id.
    pose proof (TDM_CheckBans_loop_numipfilters (to_unsigned t) 0 w).
    unfold TDM_CheckBans. lia. }
  rewrite SV_FilterPacket_loop_equation_1.
  destruct (lt_dec 0 (numipfilters w)) as [?|?]; [lia|done].
Qed.

(** X15 -- an entry that has run out decides nothing: when every entry
    that contains the address passes the test of the sweep at the clock of
    the call, [SV_FilterPacket] answers with the negated flag, as for an
    address no entry contains. *)
Theorem SV_FilterPacket_ignores_expired (t : Z) (filterban : cvar_t)
    (a : netadr_t) (w : world) :
  store_ok w ->
  (forall f : ipfilter_t,
     f ∈ live w -> net_contains (addr f) a = true ->
     expired (to_unsigned t) f = true) ->
  (SV_FilterPacket net_contains t filterban a w).1
  = lnot_float (value filterban).
Proof.
  intros Hok Hexp. rewrite SV_FilterPacket_result by done.
  rewrite bool_decide_eq_false_2; [done|].
  rewrite Exists_exists. intros (f & Hf & Hm).
  apply TDM_CheckBans_elem_of in Hf as [Hk Hin]; [|done].
  specialize (Hexp f Hin Hm). unfold kept in Hk. congruence.
Qed.

End Composition.

(** ** The extra properties at work *)

Lemma ServerCommand_keeps_shape_witness :
  wf_store 4 (Sv.run ["sv"; "ADDIP"; "203.0.113.9"] 1000 three_bans) /\
  numipfilters (Sv.run ["sv"; "ADDIP"; "203.0.113.9"] 1000 three_bans)
  = 4%nat.
Proof.
  split; [|reflexivity].
  assert (forall (cmd : string) (v : world),
            wf_store 4 v -> wf_store 4 (Sv.TDM_ServerCommand cmd v).2) as Htdm
    by (intros cmd v Hv; exact Hv).
  assert (3 <= Z.of_nat (length Sv.itemlist)) as Hitems by (simpl; lia).
  assert (wf_store 4 three_bans) as Hwf.
  { repeat split; [vm_compute; lia|]. intros j Hj.
    assert (j = 3%nat) as -> by (vm_compute in Hj; lia). reflexivity. }
  exact (ServerCommand_keeps_shape 4 Net.net_parseIPAddressMask Net.IPMASK
           "opentdm" 64 unit string id Sv.Q_stricmp Sv.atoi
           Sv.TDM_ServerCommand (Sv.argv ["sv"; "ADDIP"; "203.0.113.9"])
           1000 1000 _ _ true 3 Sv.itemlist three_bans Htdm Hitems Hwf).
Defined.

Lemma SVCmd_ListIP_f_lines_witness :
  console (listip 1000 three_bans) =
  [ "Filter list:" +:+ nl +:+ " Duration    IP" +:+ nl;
    " permanent   203.0.113.1/32" +:+ nl;
    " 1 min       203.0.113.2/32" +:+ nl;
    " permanent   198.51.100.0/24" +:+ nl ].
Proof.
  assert (store_ok three_bans) as Hok by (vm_compute; lia).
  exact (proj1 (proj2 (proj2 (proj2
    (SVCmd_ListIP_f_lines Net.IPMASK unit 1000 1000 None three_bans Hok))))).
Defined.

Lemma Svcmd_Itemlist_f_lines_witness :
  console (Sv.run ["sv"; "itemlist"] 1000 (boot 4)) =
  [ "ITEM_weapon_shotgun," +:+ nl; "ITEM_ammo_shells," +:+ nl ].
Proof.
  assert (3 <= Z.of_nat (length Sv.itemlist)) as Hitems by (simpl; lia).
  exact (f_equal console
           (Svcmd_Itemlist_f_lines string id 3 Sv.itemlist (boot 4) Hitems)).
Defined.

Lemma commands_leave_no_expired_entry_witness :
  Forall (kept (to_unsigned 1061))
         (live (removeip 1061 "203.0.113.1" three_bans)) /\
  Forall (kept (to_unsigned 1061)) (live (listip 1061 three_bans)).
Proof.
  assert (store_ok three_bans) as Hok by (vm_compute; lia).
  assert ("203.0.113.1" <> EmptyString) as Hip by done.
  pose proof (commands_leave_no_expired_entry Net.net_parseIPAddressMask
                Net.net_contains Net.IPMASK "opentdm" 64 unit 1061 1061
                filterban_on filterban_off zero_addr None "203.0.113.1"
                three_bans Hok) as (_ & Hrem & Hlist & _).
  split; [exact (Hrem Hip)|exact Hlist].
Defined.

Lemma SVCmd_RemoveIP_f_after_AddIP_witness :
  console (removeip 2000 "203.0.113.1"
             (addip 4 1000 "203.0.113.1" 0 (boot 4))) =
    ["Removed 203.0.113.1/32" +:+ nl] /\
  numipfilters (removeip 2000 "203.0.113.1"
                  (addip 4 1000 "203.0.113.1" 0 (boot 4))) = 0%nat.
Proof.
  split; [|reflexivity].
  assert ("203.0.113.1" <> EmptyString) as Hip by done.
  assert (store_ok (boot 4)) as Hok by (vm_compute; lia).
  assert (length (ipfilters (boot 4)) = 4%nat) as Hlen by reflexivity.
  assert (numipfilters (TDM_CheckBans 1000 (boot 4)) <> 4%nat) as Hfull
    by (vm_compute; lia).
  exact (proj1 (SVCmd_RemoveIP_f_after_AddIP 4 Net.net_parseIPAddressMask
                  Net.IPMASK unit 1000 1000 2000 None None "203.0.113.1"
                  (boot 4) Hip Hok Hlen Hfull)).
Defined.

Lemma SVCmd_RemoveIP_f_takes_one_witness :
  {| addr := Net.net_parseIPAddressMask "203.0.113.1";
     expire := to_unsigned (-1) |}
  ∈ live (removeip 3000 "203.0.113.1"
            (addip 4 2000 "203.0.113.1" 0
               (addip 4 1000 "203.0.113.1" 0 (boot 4)))).
Proof.
  assert ("203.0.113.1" <> EmptyString) as Hip by done.
  assert (store_ok (boot 4)) as Hok by (vm_compute; lia).
  assert (length (ipfilters (boot 4)) = 4%nat) as Hlen by reflexivity.
  assert (numipfilters (TDM_CheckBans 1000 (boot 4)) <> 4%nat) as Hfull1
    by (vm_compute; lia).
  assert (numipfilters
            (TDM_CheckBans 2000
               (SVCmd_AddIP_f 4 Net.net_parseIPAddressMask unit 1000 1000
                  None "203.0.113.1" 0 (boot 4))) <> 4%nat) as Hfull2
    by (vm_compute; lia).
  exact (proj1 (SVCmd_RemoveIP_f_takes_one 4 Net.net_parseIPAddressMask
                  Net.net_contains Net.IPMASK unit 1000 1000 2000 2000 3000
                  4000 None "203.0.113.1" filterban_on zero_addr (boot 4)
                  Hip Hok Hlen Hfull1 Hfull2)).
Defined.

Lemma SV_FilterPacket_ignores_expired_witness :
  (SV_FilterPacket Net.net_contains 1061 filterban_on
     (Net.net_parseIPAddressMask "203.0.113.2") three_bans).1 = 0.
Proof.
  assert (store_ok three_bans) as Hok by (vm_compute; lia).
  assert (forall f : ipfilter_t,
            f ∈ live three_bans ->
            Net.net_contains (addr f)
              (Net.net_parseIPAddressMask "203.0.113.2") = true ->
            expired (to_unsigned 1061) f = true) as Hexp.
  { intros f Hf Hm. vm_compute in Hf.
    repeat (apply elem_of_cons in Hf as [->|Hf]; [by vm_compute in Hm |- *|]).
    by apply elem_of_nil in Hf. }
  exact (SV_FilterPacket_ignores_expired Net.net_contains 1061 filterban_on
           (Net.net_parseIPAddressMask "203.0.113.2") three_bans Hok Hexp).
Defined.

Lemma SV_FilterPacket_empty_list_witness :
  SV_FilterPacket Net.net_contains 1000 filterban_off
    (Net.net_parseIPAddressMask "192.0.2.5") (boot 4) = (1, boot 4).
Proof.
  assert (numipfilters (boot 4) = 0%nat) as Hnum by reflexivity.
  exact (SV_FilterPacket_empty_list Net.net_contains 1000 filterban_off
           (Net.net_parseIPAddressMask "192.0.2.5") (boot 4) Hnum).
Defined.
